(** * Canvas grading assistant: the Canvas client and the route handlers

    A shallow embedding of [lib/canvas-api.ts] and of the API route
    handlers under [app/api], followed by the properties the specification
    states about them.

    JavaScript strings are modelled as [string]; only concatenation,
    [startsWith], [endsWith], [split] and a one-character [replace] are
    used by the code, and all of them act on code units one by one. *)

From Stdlib Require Import String Ascii List Bool Arith Lia.
From Stdlib Require Import DecimalString.
Import ListNotations.

Set Warnings "-register-all".

Local Open Scope list_scope.
Local Open Scope string_scope.

(** ** JavaScript string primitives used by the code *)

Module JsString.

(** [s.startsWith(p)] *)
Definition startsWith (s p : string) : bool := String.prefix p s.

(** [s.endsWith(suf)]: [s] ends with [suf] when it is [suf] itself or
    when its tail ends with [suf]. *)
Fixpoint endsWith (s suf : string) : bool :=
  match s with
  | EmptyString => String.eqb suf EmptyString
  | String _ rest => String.eqb s suf || endsWith rest suf
  end.

(** [s.replace(/^\//, "")]: drops one leading slash, if there is one. *)
Definition stripLeadingSlash (s : string) : string :=
  match s with
  | String c rest => if Ascii.eqb c "/" then rest else s
  | EmptyString => s
  end.

(** Number of slashes that end [s]. *)
Fixpoint trailingSlashes (s : string) : nat :=
  match s with
  | EmptyString => 0
  | String c rest =>
      let n := trailingSlashes rest in
      if Ascii.eqb c "/" && Nat.eqb n (String.length rest) then S n else n
  end.

(** [s.split(",")] for a one-character separator: never empty, and the
    empty string splits into one empty field. *)
Fixpoint splitOn (sep : ascii) (s : string) : list string :=
  match s with
  | EmptyString => [EmptyString]
  | String c rest =>
      if Ascii.eqb c sep then EmptyString :: splitOn sep rest
      else match splitOn sep rest with
           | field :: fields => String c field :: fields
           | [] => [String c EmptyString]
           end
  end.

(** [parts.join(",")] *)
Fixpoint join (sep : string) (parts : list string) : string :=
  match parts with
  | [] => EmptyString
  | [p] => p
  | p :: rest => p ++ sep ++ join sep rest
  end.

End JsString.

Import JsString.

(** ** [lib/canvas-api.ts]: URL normalisation *)

(** The first step of [normalizeCanvasUrl]: a scheme is put in front
    unless the URL starts with one. *)
Definition ensureProtocol (url : string) : string :=
  if negb (startsWith url "http://") && negb (startsWith url "https://")
  then "https://" ++ url
  else url.

Definition normalizeCanvasUrl (url : string) : string :=
  let normalizedUrl := ensureProtocol url in
  if negb (endsWith normalizedUrl "/")
  then normalizedUrl ++ "/"
  else normalizedUrl.

(** ** JavaScript values that cross the handlers

    Every value the handlers inspect is the result of parsing JSON, so
    [json] covers them.  A number is represented by the text that
    JavaScript's number-to-string conversion yields for it, which is all
    the code ever asks of a number besides its truthiness.  [None] in an
    [option json] stands for [undefined]; objects keep their fields in
    insertion order. *)

Inductive json : Type :=
| JNull
| JBool (b : bool)
| JNum (shown : string)
| JStr (s : string)
| JArr (items : list json)
| JObj (fields : list (string * json)).

Module Js.

Section Assoc.
Context {V : Type}.

Fixpoint assocGet (k : string) (l : list (string * V)) : option V :=
  match l with
  | [] => None
  | (k', v) :: rest => if String.eqb k' k then Some v else assocGet k rest
  end.

(** Assignment to a property: an existing field keeps its place, a new
    one goes last. *)
Fixpoint assocSet (k : string) (v : V) (l : list (string * V))
  : list (string * V) :=
  match l with
  | [] => [(k, v)]
  | (k', v') :: rest =>
      if String.eqb k' k then (k, v) :: rest
      else (k', v') :: assocSet k v rest
  end.
End Assoc.

(** The value of [v] in a boolean context. *)
Definition truthy (v : json) : bool :=
  match v with
  | JNull => false
  | JBool b => b
  | JNum shown => negb (String.eqb shown "0" || String.eqb shown "NaN")
  | JStr s => negb (String.eqb s "")
  | JArr _ | JObj _ => true
  end.

Definition truthyOpt (v : option json) : bool :=
  match v with
  | Some x => truthy x
  | None => false
  end.

(** Truthiness of a [string | null] variable. *)
Definition truthyStr (v : option string) : bool :=
  match v with
  | Some s => negb (String.eqb s "")
  | None => false
  end.

(** String conversion, as done by a template literal. *)
Fixpoint toString (v : json) : string :=
  match v with
  | JNull => "null"
  | JBool true => "true"
  | JBool false => "false"
  | JNum shown => shown
  | JStr s => s
  | JArr items =>
      join "," (map (fun x => match x with
                              | JNull => ""
                              | _ => toString x
                              end) items)
  | JObj _ => "[object Object]"
  end.

(** [v.k] for a property name [k] that is neither an index nor the name
    of a built-in property, on a value that is not [null]. *)
Definition prop (v : json) (k : string) : option json :=
  match v with
  | JObj fields => assocGet k fields
  | _ => None
  end.

(** [v?.[0]] *)
Definition optIndex0 (v : option json) : option json :=
  match v with
  | Some (JArr (x :: _)) => Some x
  | Some (JObj fields) => assocGet "0" fields
  | Some (JStr (String c _)) => Some (JStr (String c EmptyString))
  | _ => None
  end.

(** [v?.k], with [k] as for [prop]. *)
Definition optProp (v : option json) (k : string) : option json :=
  match v with
  | Some JNull | None => None
  | Some x => prop x k
  end.

End Js.

Import Js.

(** ** Effects: exceptions and the record of external calls *)

(** A thrown value: an [Error] with its message, or anything else, kept as
    the text its string conversion gives. *)
Inductive exn : Type :=
| JsError (message : string)
| Thrown (shown : string).

Inductive outcome (A : Type) : Type :=
| Ok (a : A)
| Throw (e : exn).
Arguments Ok {A} a.
Arguments Throw {A} e.

(** [RequestInit] as the client fills it. *)
Record RequestInit : Type := mkInit {
  init_method : option string;
  init_body : option string;
  init_headers : list (string * string)
}.

Inductive consoleLevel : Type := LevelLog | LevelWarn | LevelError.

Inductive event : Type :=
| EvGetSession
| EvSelectUserSettings (user_id : string)
| EvGetUser
| EvFetch (url : string) (init : RequestInit)
| EvRequestJson
| EvGenerateText (model : string) (prompt : string)
                 (temperature : string) (maxTokens : nat)
| EvConsole (level : consoleLevel) (text : string) (detail : option exn).

(** A computation yields a value or throws, and records what it did.
    The record survives an exception, as side effects do in JavaScript. *)
Definition M (A : Type) : Type := outcome A * list event.

Definition ret {A} (a : A) : M A := (Ok a, []).

Definition throw {A} (e : exn) : M A := (Throw e, []).

Definition bind {A B} (m : M A) (k : A -> M B) : M B :=
  match m with
  | (Ok a, l1) => let '(r, l2) := k a in (r, (l1 ++ l2)%list)
  | (Throw e, l1) => (Throw e, l1)
  end.

(** [try { m } catch (e) { handler e }] *)
Definition tryCatch {A} (m : M A) (handler : exn -> M A) : M A :=
  match m with
  | (Ok a, l1) => (Ok a, l1)
  | (Throw e, l1) => let '(r, l2) := handler e in (r, (l1 ++ l2)%list)
  end.

Definition emit (e : event) : M unit := (Ok tt, [e]).

(** An external call: recorded, then answered by the world. *)
Definition call {A} (e : event) (answer : outcome A) : M A :=
  (answer, [e]).

(** A value that is already settled and needs no call of its own. *)
Definition settle {A} (o : outcome A) : M A := (o, []).

Definition console (level : consoleLevel) (text : string)
  (detail : option exn) : M unit :=
  emit (EvConsole level text detail).

Definition result {A} (m : M A) : outcome A := fst m.
Definition trace {A} (m : M A) : list event := snd m.

Declare Scope js_scope.
Delimit Scope js_scope with js.
Notation "x <- m ;; k" := (bind m (fun x => k))
  (at level 61, m at next level, right associativity) : js_scope.
Notation "m ;;; k" := (bind m (fun _ => k))
  (at level 61, right associativity) : js_scope.
Local Open Scope js_scope.

(** ** The world outside the handlers

    The identity provider, the settings table, Canvas and the language
    model answer the calls of a handler.  No handler makes the same call
    twice in one run, so one answer per call describes a run completely.
    The record also holds the platform functions whose results the code
    only passes along. *)

Record Session : Type := mkSession { session_user_id : string }.

(** The two columns selected from [user_settings]. *)
Record SettingsRow : Type := mkRow {
  canvas_url : option string;
  canvas_token : option string
}.

(** What [.single()] resolves to. *)
Record QueryResult : Type := mkQuery {
  data : option SettingsRow;
  error : option string
}.

(** The two fields the handlers read from [user_metadata], at the type of
    the variables they are assigned to ([string | null]); a missing field
    is [None]. *)
Record UserMetadata : Type := mkMeta {
  meta_canvas_url : option string;
  meta_canvas_token : option string
}.

Record FetchResponse : Type := mkFetchResponse {
  ok : bool;
  status : nat;
  statusText : string;
  (** what [response.json()] settles to *)
  json_body : outcome json
}.

Record World : Type := mkWorld {
  (** [supabase.auth.getSession()], down to [data.session] *)
  getSession : outcome (option Session);
  (** [from("user_settings").select(..).eq("user_id", id).single()] *)
  selectUserSettings : string -> outcome QueryResult;
  (** [supabase.auth.getUser()], down to [data.user?.user_metadata] *)
  getUser : outcome (option UserMetadata);
  fetch : string -> RequestInit -> outcome FetchResponse;
  (** [generateText({ model, prompt, temperature, maxTokens })], down to
      [text] *)
  generateText : string -> string -> string -> nat -> outcome string;
  JSON_parse : string -> outcome json;
  JSON_stringify : json -> string;
  (** [URLSearchParams.prototype.toString] on the pairs set so far *)
  URLSearchParams_toString : list (string * string) -> string;
  (** message of the [TypeError] raised by the named illegal access *)
  typeErrorMessage : string -> string
}.

(** The incoming HTTP request: its query parameters and what
    [request.json()] settles to. *)
Record Request : Type := mkRequest {
  searchParams : list (string * string);
  request_json : outcome json
}.

(** A [NextResponse.json(body, { status })]. *)
Record Response : Type := mkResponse {
  response_status : nat;
  response_body : json
}.

Definition NextResponse_json (body : json) (status : nat) : Response :=
  mkResponse status body.

Definition showNat (n : nat) : string :=
  NilEmpty.string_of_uint (Nat.to_uint n).

(** [error instanceof Error ? error.message : fallback] *)
Definition messageOr (e : exn) (fallback : string) : string :=
  match e with
  | JsError message => message
  | Thrown _ => fallback
  end.

(** ** [lib/canvas-api.ts]: the client *)

Record CanvasApiClient : Type := mkClient {
  baseUrl : string;
  token : string
}.

(** The constructor. *)
Definition createCanvasApiClient (canvasUrl tok : string) : CanvasApiClient :=
  mkClient (normalizeCanvasUrl canvasUrl) tok.

(** Options of [request] as the callers give them. *)
Definition noOptions : RequestInit := mkInit None None [].

Section Client.

Variable W : World.
Variable client : CanvasApiClient.

Definition requestUrl (endpoint : string) : string :=
  baseUrl client ++ "api/v1/" ++ stripLeadingSlash endpoint.

(** The three headers of the client, overridden by the caller's. *)
Definition requestHeaders (options : RequestInit) : list (string * string) :=
  fold_left (fun acc kv => assocSet (fst kv) (snd kv) acc)
    (init_headers options)
    [("Authorization", "Bearer " ++ token client);
     ("Accept", "application/json");
     ("Content-Type", "application/json")].

(** [errorData.errors?.[0]?.message || errorMessage], with the
    [TypeError] of reading [errors] from [null] already caught. *)
Definition extractErrorMessage (errorData : outcome json)
  (errorMessage : string) : string :=
  match errorData with
  | Ok JNull | Throw _ => errorMessage
  | Ok d =>
      let m := optProp (optIndex0 (prop d "errors")) "message" in
      match m with
      | Some v => if truthy v then toString v else errorMessage
      | None => errorMessage
      end
  end.

(** The [catch] block of [request]. *)
Definition requestCatch (url : string) (throwOnError : bool) (e : exn)
  : M (json + FetchResponse) :=
  console LevelError ("Canvas API request failed for " ++ url ++ ":")
    (Some e) ;;;
  match e with
  | JsError message =>
      if String.eqb message "Failed to fetch" then
        let enhanced :=
          "Network error when connecting to Canvas API at " ++ url
          ++ ". Please check your Canvas URL and network connection." in
        if throwOnError then throw (JsError enhanced)
        else console LevelWarn enhanced None ;;; ret (inl JNull)
      else if throwOnError then throw e
      else console LevelWarn message None ;;; ret (inl JNull)
  | Thrown shown =>
      let generic := "Failed to connect to Canvas API: " ++ shown in
      if throwOnError then throw (JsError generic)
      else console LevelWarn generic None ;;; ret (inl JNull)
  end.

(** [request<T>(endpoint, options, throwOnError)].  The [try] block ends
    in [return response.json()] without [await]: the promise leaves the
    block unsettled, so its rejection is not seen by the [catch] and
    reaches the caller whatever [throwOnError] says.  The block
    therefore yields either a finished result or the response still to
    be read. *)
Definition request (endpoint : string) (options : RequestInit)
  (throwOnError : bool) : M json :=
  let url := requestUrl endpoint in
  let init := mkInit (init_method options) (init_body options)
                (requestHeaders options) in
  console LevelLog ("Making Canvas API request to: " ++ url) None ;;;
  r <- tryCatch
         (response <- call (EvFetch url init) (fetch W url init) ;;
          if negb (ok response) then
            let errorMessage :=
              extractErrorMessage (json_body response)
                ("Canvas API error: " ++ showNat (status response)
                 ++ " " ++ statusText response) in
            if throwOnError then throw (JsError errorMessage)
            else console LevelWarn errorMessage None ;;; ret (inl JNull)
          else ret (inr response))
         (requestCatch url throwOnError) ;;
  match r with
  | inl v => ret v
  | inr response => settle (json_body response)
  end.

End Client.

(** The typed operations.  A list option that is left out behaves like the
    empty list and a string option that is left out like the empty string,
    so options are modelled as lists and strings. *)
Section ClientOperations.

Variable W : World.
Variable client : CanvasApiClient.

Definition setList (k : string) (values : list string)
  (params : list (string * string)) : list (string * string) :=
  match values with
  | [] => params
  | _ => assocSet k (join "," values) params
  end.

Definition setString (k : string) (value : string)
  (params : list (string * string)) : list (string * string) :=
  if String.eqb value "" then params else assocSet k value params.

Definition getAssignment (courseId assignmentId : string) : M json :=
  tryCatch
    (console LevelLog ("Fetching assignment " ++ assignmentId
                       ++ " for course " ++ courseId) None ;;;
     request W client
       ("courses/" ++ courseId ++ "/assignments/" ++ assignmentId)
       noOptions true)
    (fun e =>
       console LevelError ("Error fetching assignment " ++ assignmentId
                           ++ ":") (Some e) ;;;
       throw e).

Definition getCurrentUser : M json :=
  request W client "users/self" noOptions true.

Definition getCourses (include : list string) (enrollment_state : string)
  (state : list string) (enrollment_type : string) : M json :=
  let queryParams :=
    assocSet "per_page" "100"
      (setString "enrollment_type" enrollment_type
         (setList "state" state
            (setString "enrollment_state" enrollment_state
               (setList "include" include [])))) in
  request W client
    ("courses?" ++ URLSearchParams_toString W queryParams) noOptions true.

Definition getCourseAssignments (courseId : string)
  (include : list string) (bucket : string) (assignment_ids : list string)
  : M json :=
  let queryParams :=
    assocSet "per_page" "100"
      (setList "assignment_ids" assignment_ids
         (setString "bucket" bucket
            (setList "include" include []))) in
  request W client
    ("courses/" ++ courseId ++ "/assignments?"
     ++ URLSearchParams_toString W queryParams) noOptions true.

Definition getAssignmentSubmissions (courseId assignmentId : string)
  (include : list string) : M json :=
  let queryParams :=
    assocSet "per_page" "100" (setList "include" include []) in
  request W client
    ("courses/" ++ courseId ++ "/assignments/" ++ assignmentId
     ++ "/submissions?" ++ URLSearchParams_toString W queryParams)
    noOptions true.

Definition getSubmission (courseId assignmentId userId : string)
  (include : list string) : M json :=
  let queryParams := setList "include" include [] in
  request W client
    ("courses/" ++ courseId ++ "/assignments/" ++ assignmentId
     ++ "/submissions/" ++ userId ++ "?"
     ++ URLSearchParams_toString W queryParams)
    noOptions true.

Definition getUserById (userId : string) (throwOnError : bool) : M json :=
  tryCatch
    (console LevelLog ("Fetching user " ++ userId) None ;;;
     request W client ("users/" ++ userId) noOptions throwOnError)
    (fun e =>
       console LevelError ("Error fetching user " ++ userId ++ ":")
         (Some e) ;;;
       if throwOnError then throw e else ret JNull).

Definition updateSubmissionGrade (courseId assignmentId userId : string)
  (data : json) : M json :=
  request W client
    ("courses/" ++ courseId ++ "/assignments/" ++ assignmentId
     ++ "/submissions/" ++ userId)
    (mkInit (Some "PUT") (Some (JSON_stringify W data)) [])
    true.

End ClientOperations.

(** ** Route handlers under [app/api/canvas] *)

Definition errorBody (message : string) : json :=
  JObj [("error", JStr message)].

Definition credentialsMissing : Response :=
  NextResponse_json
    (errorBody "Canvas credentials not found. Please complete onboarding.")
    400.

(** The outermost [catch] of a handler. *)
Definition unexpected (logText : string) (e : exn) : M Response :=
  console LevelError logText (Some e) ;;;
  ret (NextResponse_json
         (errorBody (messageOr e "An unexpected error occurred")) 500).

(** [url.searchParams.get(k)?.split(",") || fallback]: the array that
    [split] returns is never falsy. *)
Definition listParam (request : Request) (k : string)
  (fallback : list string) : list string :=
  match assocGet k (searchParams request) with
  | Some s => splitOn "," s
  | None => fallback
  end.

(** [url.searchParams.get(k) || fallback] *)
Definition stringParam (request : Request) (k : string) (fallback : string)
  : string :=
  match assocGet k (searchParams request) with
  | Some s => if String.eqb s "" then fallback else s
  | None => fallback
  end.

Section CredentialResolution.

Variable W : World.

(** The block "Get the user's Canvas settings" that every Canvas route
    handler repeats word for word: the two variables after the
    settings-table step and the metadata step. *)
Definition resolveCredentials (session : Session)
  : M (option string * option string) :=
  fromTable <-
    tryCatch
      (q <- call (EvSelectUserSettings (session_user_id session))
              (selectUserSettings W (session_user_id session)) ;;
       match error q, data q with
       | None, Some userSettings =>
           ret (canvas_url userSettings, canvas_token userSettings)
       | _, _ => ret (None, None)
       end)
      (fun err =>
         console LevelWarn
           "Error fetching from user_settings, trying user metadata:"
           (Some err) ;;;
         ret (None, None)) ;;
  let '(canvasUrl, canvasToken) := fromTable in
  if negb (truthyStr canvasUrl) || negb (truthyStr canvasToken) then
    userData <- call EvGetUser (getUser W) ;;
    let userMetadata :=
      match userData with
      | Some m => m
      | None => mkMeta None None
      end in
    if truthyStr (meta_canvas_url userMetadata)
       && truthyStr (meta_canvas_token userMetadata)
    then ret (meta_canvas_url userMetadata, meta_canvas_token userMetadata)
    else ret (canvasUrl, canvasToken)
  else ret (canvasUrl, canvasToken).

(** The test [!canvasUrl || !canvasToken]: the pair that passes it. *)
Definition usable (credentials : option string * option string)
  : option (string * string) :=
  match credentials with
  | (Some canvasUrl, Some canvasToken) =>
      if negb (truthyStr (Some canvasUrl))
         || negb (truthyStr (Some canvasToken))
      then None
      else Some (canvasUrl, canvasToken)
  | _ => None
  end.

(** From the session check to the credentials test, as every Canvas
    route handler has it; [k] is the rest of the handler. *)
Definition withCredentials (k : string -> string -> M Response)
  : M Response :=
  session <- call EvGetSession (getSession W) ;;
  match session with
  | None => ret (NextResponse_json (errorBody "Unauthorized") 401)
  | Some session =>
      credentials <- resolveCredentials session ;;
      match usable credentials with
      | None => ret credentialsMissing
      | Some (canvasUrl, canvasToken) => k canvasUrl canvasToken
      end
  end.

End CredentialResolution.

Section CanvasRoutes.

Variable W : World.

(** The user object made up for a submission that lacks one. *)
Definition placeholderUser (userId : string) : json :=
  JObj [("id", JStr userId);
        ("name", JStr ("Student " ++ userId));
        ("sortable_name", JStr ("Student " ++ userId));
        ("avatar_url", JStr "")].

(** [v.k = x] in strict mode.  A property with a name on an array is not
    part of what is serialised; a primitive cannot take a property. *)
Definition assignProp (v : json) (k : string) (x : json) : M json :=
  match v with
  | JObj fields => ret (JObj (assocSet k x fields))
  | JArr _ => ret v
  | _ => throw (JsError (typeErrorMessage W ("create property " ++ k)))
  end.

(** The body sent when only the assignment could be fetched. *)
Definition degradedBody (assignment : json) (assignmentId userId : string)
  : json :=
  JObj [("error", JStr "Failed to fetch submission details");
        ("assignment", assignment);
        ("submission",
          JObj [("id", JStr "unknown");
                ("user_id", JStr userId);
                ("assignment_id", JStr assignmentId);
                ("user", placeholderUser userId)])].

(** The [catch (submissionError)] block of the GET handler. *)
Definition submissionFallback (canvasApi : CanvasApiClient)
  (courseId assignmentId userId : string) (submissionError : exn)
  : M Response :=
  console LevelError "Error fetching submission:" (Some submissionError) ;;;
  tryCatch
    (assignment <- getAssignment W canvasApi courseId assignmentId ;;
     ret (NextResponse_json
            (degradedBody assignment assignmentId userId) 200))
    (fun assignmentError =>
       console LevelError "Error fetching assignment:"
         (Some assignmentError) ;;;
       ret (NextResponse_json
              (errorBody
                 "Failed to fetch submission and assignment details")
              404)).

(** [GET .../submissions/[userId]] *)
Definition GET_submission (request : Request)
  (courseId assignmentId userId : string) : M Response :=
  tryCatch
    (if String.eqb courseId "" || String.eqb assignmentId ""
        || String.eqb userId ""
     then ret (NextResponse_json
                 (errorBody
                    "Course ID, Assignment ID, and User ID are required")
                 400)
     else
       withCredentials W (fun canvasUrl canvasToken =>
         let include :=
           listParam request "include" ["user"; "submission_comments"] in
         let canvasApi := createCanvasApiClient canvasUrl canvasToken in
         tryCatch
           (submission <-
              getSubmission W canvasApi courseId assignmentId userId
                include ;;
            if negb (truthy submission) then
              console LevelError "Submission not found or returned empty"
                None ;;;
              ret (NextResponse_json (errorBody "Submission not found") 404)
            else
              submission <-
                (if negb (truthyOpt (prop submission "user")) then
                   console LevelWarn
                     "Submission missing user data, creating minimal user object"
                     None ;;;
                   assignProp submission "user" (placeholderUser userId)
                 else ret submission) ;;
              ret (NextResponse_json
                     (JObj [("submission", submission)]) 200))
           (submissionFallback canvasApi courseId assignmentId userId)))
    (unexpected "Error in submission API route:").

(** [PUT .../submissions/[userId]] *)
Definition PUT_submission (request : Request)
  (courseId assignmentId userId : string) : M Response :=
  tryCatch
    (if String.eqb courseId "" || String.eqb assignmentId ""
        || String.eqb userId ""
     then ret (NextResponse_json
                 (errorBody
                    "Course ID, Assignment ID, and User ID are required")
                 400)
     else
       withCredentials W (fun canvasUrl canvasToken =>
         body <- call EvRequestJson (request_json request) ;;
         let canvasApi := createCanvasApiClient canvasUrl canvasToken in
         tryCatch
           (updatedSubmission <-
              updateSubmissionGrade W canvasApi courseId assignmentId
                userId body ;;
            ret (NextResponse_json
                   (JObj [("submission", updatedSubmission)]) 200))
           (fun e =>
              console LevelError "Error updating submission grade:"
                (Some e) ;;;
              ret (NextResponse_json
                     (errorBody
                        (messageOr e "Failed to update submission grade"))
                     500))))
    (unexpected "Error in submission update API route:").

(** [GET .../assignments/[assignmentId]/submissions] *)
Definition GET_submissions (request : Request)
  (courseId assignmentId : string) : M Response :=
  tryCatch
    (if String.eqb courseId "" || String.eqb assignmentId ""
     then ret (NextResponse_json
                 (errorBody "Course ID and Assignment ID are required") 400)
     else
       withCredentials W (fun canvasUrl canvasToken =>
         let include := listParam request "include" ["user"] in
         let canvasApi := createCanvasApiClient canvasUrl canvasToken in
         submissions <-
           getAssignmentSubmissions W canvasApi courseId assignmentId
             include ;;
         ret (NextResponse_json (JObj [("submissions", submissions)]) 200)))
    (unexpected "Error fetching Canvas submissions:").

(** [GET .../assignments/[assignmentId]] *)
Definition GET_assignment (request : Request)
  (courseId assignmentId : string) : M Response :=
  tryCatch
    (if String.eqb courseId "" || String.eqb assignmentId ""
     then ret (NextResponse_json
                 (errorBody "Course ID and Assignment ID are required") 400)
     else
       console LevelLog ("Processing request for course " ++ courseId
                         ++ ", assignment " ++ assignmentId) None ;;;
       withCredentials W (fun canvasUrl canvasToken =>
         console LevelLog
           ("Using Canvas URL: " ++ canvasUrl ++ " (token length: "
            ++ showNat (String.length canvasToken) ++ ")") None ;;;
         let canvasApi := createCanvasApiClient canvasUrl canvasToken in
         tryCatch
           (assignment <- getAssignment W canvasApi courseId assignmentId ;;
            if negb (truthy assignment) then
              ret (NextResponse_json (errorBody "Assignment not found") 404)
            else
              ret (NextResponse_json
                     (JObj [("assignment", assignment)]) 200))
           (fun err =>
              console LevelError "Error fetching specific assignment:"
                (Some err) ;;;
              ret (NextResponse_json
                     (errorBody
                        (messageOr err
                           "Assignment not found or inaccessible"))
                     404))))
    (unexpected "Error in assignment API route:").

(** [GET /api/canvas/courses/[id]/assignments] *)
Definition GET_assignments (request : Request) (id : string) : M Response :=
  tryCatch
    (let courseId := id in
     if String.eqb courseId ""
     then ret (NextResponse_json (errorBody "Course ID is required") 400)
     else
       withCredentials W (fun canvasUrl canvasToken =>
         let canvasApi := createCanvasApiClient canvasUrl canvasToken in
         assignments <-
           getCourseAssignments W canvasApi courseId
             ["submission_count"; "overrides"] "" [] ;;
         ret (NextResponse_json (JObj [("assignments", assignments)]) 200)))
    (unexpected "Error fetching Canvas assignments:").

(** [GET /api/canvas/courses] *)
Definition GET_courses (request : Request) : M Response :=
  tryCatch
    (withCredentials W (fun canvasUrl canvasToken =>
       let include := listParam request "include" [] in
       let enrollmentState :=
         stringParam request "enrollment_state" "active" in
       let state := listParam request "state" ["available"] in
       let enrollmentType := stringParam request "enrollment_type" "teacher" in
       let canvasApi := createCanvasApiClient canvasUrl canvasToken in
       courses <-
         getCourses W canvasApi include enrollmentState state
           enrollmentType ;;
       ret (NextResponse_json (JObj [("courses", courses)]) 200)))
    (unexpected "Error fetching Canvas courses:").

End CanvasRoutes.

(** ** [app/api/ai/grade-submission/route.ts] *)

Definition nl : string := String (ascii_of_nat 10) EmptyString.
Definition dq : string := String (ascii_of_nat 34) EmptyString.

(** [v || fallback] inside a template literal. *)
Definition shownOr (v : option json) (fallback : string) : string :=
  match v with
  | Some x => if truthy x then toString x else fallback
  | None => fallback
  end.

(** [`${v}`] for the value of a destructured field. *)
Definition toStringOpt (v : option json) : string :=
  match v with
  | Some x => toString x
  | None => "undefined"
  end.

(** The prompt template. *)
Definition gradingPrompt
  (assignmentDescription submissionContent pointsPossible rubric : option json)
  : string :=
  nl ++ "You are an expert educational assistant helping a teacher grade a student submission." ++ nl
  ++ nl
  ++ "ASSIGNMENT DESCRIPTION:" ++ nl
  ++ toStringOpt assignmentDescription ++ nl
  ++ nl
  ++ "POINTS POSSIBLE: " ++ shownOr pointsPossible "Not specified" ++ nl
  ++ nl
  ++ (if truthyOpt rubric then "RUBRIC:" ++ nl ++ toStringOpt rubric else "")
  ++ nl
  ++ nl
  ++ "STUDENT SUBMISSION:" ++ nl
  ++ toStringOpt submissionContent ++ nl
  ++ nl
  ++ "Please provide a comprehensive evaluation of this submission. Your response should include:" ++ nl
  ++ nl
  ++ "1. A suggested grade (out of " ++ shownOr pointsPossible "100" ++ " points)" ++ nl
  ++ "2. Detailed feedback explaining the grade, highlighting strengths and areas for improvement" ++ nl
  ++ "3. Specific references to the submission content to justify your evaluation" ++ nl
  ++ "4. Constructive suggestions for improvement" ++ nl
  ++ nl
  ++ "Format your response as a JSON object with the following structure:" ++ nl
  ++ "{" ++ nl
  ++ "  " ++ dq ++ "grade" ++ dq ++ ": number," ++ nl
  ++ "  " ++ dq ++ "feedback" ++ dq ++ ": " ++ dq ++ "detailed feedback text" ++ dq ++ "," ++ nl
  ++ "  " ++ dq ++ "strengths" ++ dq ++ ": [" ++ dq ++ "strength1" ++ dq ++ ", " ++ dq ++ "strength2" ++ dq ++ ", ...]," ++ nl
  ++ "  " ++ dq ++ "areasForImprovement" ++ dq ++ ": [" ++ dq ++ "area1" ++ dq ++ ", " ++ dq ++ "area2" ++ dq ++ ", ...]," ++ nl
  ++ "  " ++ dq ++ "summary" ++ dq ++ ": " ++ dq ++ "brief summary of evaluation" ++ dq ++ nl
  ++ "}" ++ nl.

Section AiRoute.

Variable W : World.

(** [const { a, b, .. } = body]: reading a field of the parsed body;
    destructuring [null] raises a [TypeError]. *)
Definition destructure (body : json) : M (string -> option json) :=
  match body with
  | JNull => throw (JsError (typeErrorMessage W "destructure null"))
  | _ => ret (prop body)
  end.

(** [POST /api/ai/grade-submission] *)
Definition POST_grade_submission (request : Request) : M Response :=
  tryCatch
    (body <- call EvRequestJson (request_json request) ;;
     field <- destructure body ;;
     let assignmentDescription := field "assignmentDescription" in
     let submissionContent := field "submissionContent" in
     let pointsPossible := field "pointsPossible" in
     let rubric := field "rubric" in
     if negb (truthyOpt assignmentDescription)
        || negb (truthyOpt submissionContent)
     then
       ret (NextResponse_json
              (errorBody
                 "Assignment description and submission content are required")
              400)
     else
       let prompt :=
         gradingPrompt assignmentDescription submissionContent
           pointsPossible rubric in
       text <- call (EvGenerateText "gpt-4o" prompt "0.2" 2000)
                 (generateText W "gpt-4o" prompt "0.2" 2000) ;;
       tryCatch
         (grading <- settle (JSON_parse W text) ;;
          ret (NextResponse_json grading 200))
         (fun e =>
            console LevelError "Error parsing AI response:" (Some e) ;;;
            ret (NextResponse_json
                   (JObj [("error", JStr "Failed to parse AI response");
                          ("rawResponse", JStr text)])
                   500)))
    (unexpected "Error in AI grading:").

End AiRoute.

(** ** Reading a run *)

Definition isFetch (e : event) : bool :=
  match e with
  | EvFetch _ _ => true
  | _ => false
  end.

Definition isGenerateText (e : event) : bool :=
  match e with
  | EvGenerateText _ _ _ _ => true
  | _ => false
  end.

Definition isSessionLookup (e : event) : bool :=
  match e with
  | EvGetSession | EvGetUser => true
  | _ => false
  end.

(** The calls to Canvas made during a run. *)
Definition canvasCalls {A} (m : M A) : list event := filter isFetch (trace m).

(** The calls to the language model made during a run. *)
Definition modelCalls {A} (m : M A) : list event :=
  filter isGenerateText (trace m).

(** [traceAll P m]: every step recorded by [m] satisfies [P]. *)
Definition traceAll {A} (P : event -> Prop) (m : M A) : Prop :=
  Forall P (trace m).

(** The calls to the identity provider and to the settings table. *)
Definition isIdentityCall (e : event) : bool :=
  match e with
  | EvGetSession | EvGetUser | EvSelectUserSettings _ => true
  | _ => false
  end.

(** ** Vocabulary of the specification *)

(** The credential pair a handler ends up with for [session], if any. *)
Definition credentialsOf (W : World) (session : Session)
  : option (string * string) :=
  match result (resolveCredentials W session) with
  | Ok credentials => usable credentials
  | Throw _ => None
  end.

(** The row of [user_settings] the query delivers without error. *)
Definition settingsRow (W : World) (session : Session) : option SettingsRow :=
  match selectUserSettings W (session_user_id session) with
  | Ok q => match error q with
            | None => data q
            | Some _ => None
            end
  | Throw _ => None
  end.

(** The two columns as the settings-table step leaves them in the
    handler's variables. *)
Definition tableColumns (W : World) (session : Session)
  : option string * option string :=
  match settingsRow W session with
  | Some row => (canvas_url row, canvas_token row)
  | None => (None, None)
  end.

(** The pair the settings table holds: both columns present and not
    empty. *)
Definition settingsPair (W : World) (session : Session)
  : option (string * string) :=
  match settingsRow W session with
  | Some row => usable (canvas_url row, canvas_token row)
  | None => None
  end.

(** The pair the user-metadata bag holds. *)
Definition metadataPair (W : World) : option (string * string) :=
  match getUser W with
  | Ok (Some m) => usable (meta_canvas_url m, meta_canvas_token m)
  | _ => None
  end.

(** Both values are columns of the row of [user_settings]. *)
Definition fromSettings (W : World) (session : Session)
  (canvasUrl canvasToken : string) : Prop :=
  exists row,
    settingsRow W session = Some row
    /\ canvas_url row = Some canvasUrl
    /\ canvas_token row = Some canvasToken.

(** Both values are fields of the user-metadata bag. *)
Definition fromMetadata (W : World) (canvasUrl canvasToken : string) : Prop :=
  exists m,
    getUser W = Ok (Some m)
    /\ meta_canvas_url m = Some canvasUrl
    /\ meta_canvas_token m = Some canvasToken.

(** A run that stops for want of credentials: Canvas is not called, and
    the answer is the 400 response, or the 500 response when the identity
    provider itself failed. *)
Definition refusedForCredentials (W : World) (run : M Response) : Prop :=
  filter isFetch (trace run) = []
  /\ match getUser W with
     | Ok _ => result run = Ok credentialsMissing
     | Throw e =>
         result run
         = Ok (NextResponse_json
                 (errorBody (messageOr e "An unexpected error occurred")) 500)
     end.

(** A request to Canvas made with the credentials [canvasUrl] and
    [canvasToken]: it goes below the normalised base URL and carries the
    token as bearer. *)
Definition usesCredentials (canvasUrl canvasToken : string) (e : event)
  : Prop :=
  match e with
  | EvFetch url init =>
      startsWith url (normalizeCanvasUrl canvasUrl ++ "api/v1/") = true
      /\ assocGet "Authorization" (init_headers init)
         = Some ("Bearer " ++ canvasToken)
  | _ => True
  end.

(** A property of events that only constrains the requests to Canvas. *)
Definition onlyAboutFetch (P : event -> Prop) : Prop :=
  forall e, isFetch e = false -> P e.

(** [client] only sends requests that satisfy [P]. *)
Definition clientRespects (P : event -> Prop) (W : World)
  (client : CanvasApiClient) : Prop :=
  forall endpoint options throwOnError,
    init_headers options = [] ->
    traceAll P (request W client endpoint options throwOnError).

(** One run of each Canvas route handler. *)
Definition canvasRouteRuns (W : World) (request : Request)
  (courseId assignmentId userId : string) : list (M Response) :=
  [GET_submission W request courseId assignmentId userId;
   PUT_submission W request courseId assignmentId userId;
   GET_submissions W request courseId assignmentId;
   GET_assignment W request courseId assignmentId;
   GET_assignments W request courseId;
   GET_courses W request].

(** ** Sample worlds, for running the model on concrete inputs *)

Module Sample.

Definition teacher : Session := mkSession "teacher-1".

(** A stand-in for the query-string serialiser: no escaping. *)
Definition plainQuery (params : list (string * string)) : string :=
  join "&" (map (fun kv => fst kv ++ "=" ++ snd kv) params).

(** A stand-in for [JSON.parse] that knows one document. *)
Definition parseOnlyEmptyObject (text : string) : outcome json :=
  if String.eqb text "{}" then Ok (JObj [])
  else Throw (JsError "Unexpected token").

Definition world (settings : outcome QueryResult)
  (metadata : option UserMetadata)
  (net : string -> RequestInit -> outcome FetchResponse)
  (llm : outcome string) : World :=
  mkWorld (Ok (Some teacher)) (fun _ => settings) (Ok metadata) net
    (fun _ _ _ _ => llm) parseOnlyEmptyObject (fun _ => "{}")
    plainQuery (fun what => "TypeError: " ++ what).

Definition storedRow : outcome QueryResult :=
  Ok (mkQuery (Some (mkRow (Some "canvas.example.edu") (Some "secret")))
        None).

Definition noRow : outcome QueryResult :=
  Ok (mkQuery None (Some "PGRST116")).

(** A row whose URL column holds the empty string. *)
Definition blankUrlRow : outcome QueryResult :=
  Ok (mkQuery (Some (mkRow (Some "") (Some "secret"))) None).

Definition backup : option UserMetadata :=
  Some (mkMeta (Some "https://backup.example.edu/") (Some "backup-token")).

Definition offline : string -> RequestInit -> outcome FetchResponse :=
  fun _ _ => Throw (JsError "Failed to fetch").

Definition okJson (v : json) : FetchResponse :=
  mkFetchResponse true 200 "OK" (Ok v).

Definition assignment9 : json :=
  JObj [("id", JNum "9"); ("name", JStr "Essay")].

(** Canvas answers for the assignment and is unreachable for anything
    else. *)
Definition onlyAssignment : string -> RequestInit -> outcome FetchResponse :=
  fun url _ =>
    if String.eqb url
         "https://canvas.example.edu/api/v1/courses/7/assignments/9"
    then Ok (okJson assignment9)
    else Throw (JsError "Failed to fetch").

(** Canvas answers every request with a submission that has no user. *)
Definition bareSubmission : string -> RequestInit -> outcome FetchResponse :=
  fun _ _ => Ok (okJson (JObj [("id", JNum "31"); ("score", JNull)])).

Definition client : CanvasApiClient :=
  createCanvasApiClient "canvas.example.edu" "secret".

Definition emptyRequest : Request := mkRequest [] (Ok JNull).

Definition gradingRequest : Request :=
  mkRequest []
    (Ok (JObj [("assignmentDescription", JStr "Write an essay");
               ("submissionContent", JStr "My essay")])).

(** Both fields are there, one of them empty. *)
Definition blankGradingRequest : Request :=
  mkRequest []
    (Ok (JObj [("assignmentDescription", JStr "");
               ("submissionContent", JStr "My essay")])).

(** The settings row has an empty URL, the metadata bag is complete. *)
Definition blankUrlWorld : World :=
  world blankUrlRow backup offline (Ok "").

(** Neither source holds credentials. *)
Definition bareWorld : World :=
  world noRow None offline (Ok "").

(** The settings row and the metadata bag both hold credentials. *)
Definition settledWorld : World :=
  world storedRow backup offline (Ok "").

(** Nobody is signed in; the model answers with an empty object. *)
Definition anonymousWorld : World :=
  mkWorld (Ok None) (fun _ => noRow) (Ok None) offline
    (fun _ _ _ _ => Ok "{}") parseOnlyEmptyObject (fun _ => "{}")
    plainQuery (fun what => "TypeError: " ++ what).

(** The model answers with prose. *)
Definition ramblingWorld : World :=
  world noRow None offline (Ok "Grade: 90").

End Sample.

(** ** The rest of [lib/canvas-api.ts] and the connection test *)

Section ConnectionTest.

Variable W : World.

(** [new URL(url)] succeeds; the parser belongs to the platform. *)
Variable URL_parses : string -> bool.

Definition isValidUrl (url : string) : bool := URL_parses url.

Definition getCourse (client : CanvasApiClient) (courseId : string)
  (include : list string) : M json :=
  let queryParams := setList "include" include [] in
  request W client
    ("courses/" ++ courseId ++ "?" ++ URLSearchParams_toString W queryParams)
    noOptions true.

(** The fields of an object literal that survive serialisation: those
    whose value is not [undefined]. *)
Fixpoint definedFields (fields : list (string * option json))
  : list (string * json) :=
  match fields with
  | [] => []
  | (k, Some v) :: rest => (k, v) :: definedFields rest
  | (_, None) :: rest => definedFields rest
  end.

(** [user.email || user.login_id] *)
Definition emailOrLogin (user : json) : option json :=
  if truthyOpt (prop user "email") then prop user "email"
  else prop user "login_id".

Definition testConnection (client : CanvasApiClient) : M json :=
  tryCatch
    (user <- getCurrentUser W client ;;
     match user with
     | JNull => throw (JsError (typeErrorMessage W "read property id"))
     | _ =>
         ret (JObj [("success", JBool true);
                    ("user",
                      JObj (definedFields
                              [("id", prop user "id");
                               ("name", prop user "name");
                               ("email", emailOrLogin user);
                               ("avatar_url", prop user "avatar_url")]))])
     end)
    (fun e => throw e).

(** [POST /api/canvas/test-connection].  The two fields of the body are
    untyped: a URL that is not a string reaches [normalizeCanvasUrl],
    which calls [startsWith] on it and fails; a token that is not a
    string is converted where the header is built. *)
Definition POST_test_connection (request : Request) : M Response :=
  tryCatch
    (body <- call EvRequestJson (request_json request) ;;
     field <- destructure W body ;;
     let canvasUrl := field "canvasUrl" in
     let canvasToken := field "canvasToken" in
     if negb (truthyOpt canvasUrl) || negb (truthyOpt canvasToken) then
       ret (NextResponse_json
              (errorBody "Canvas URL and API token are required") 400)
     else if negb (isValidUrl (toStringOpt canvasUrl))
             && negb (isValidUrl ("https://" ++ toStringOpt canvasUrl))
     then
       ret (NextResponse_json
              (errorBody "Please enter a valid Canvas URL") 400)
     else
       match canvasUrl with
       | Some (JStr url) =>
           let normalizedUrl := normalizeCanvasUrl url in
           let canvasApi :=
             createCanvasApiClient normalizedUrl
               (toStringOpt canvasToken) in
           tryCatch
             (result <- testConnection canvasApi ;;
              ret (NextResponse_json result 200))
             (fun e =>
                ret (NextResponse_json
                       (errorBody
                          (messageOr e "Failed to connect to Canvas"))
                       400))
       | _ => throw (JsError (typeErrorMessage W "call startsWith"))
       end)
    (unexpected "Canvas test connection error:").

End ConnectionTest.

(** ** More vocabulary for reading runs *)

(** The lookups of stored credentials. *)
Definition isCredentialLookup (e : event) : bool :=
  match e with
  | EvSelectUserSettings _ | EvGetUser => true
  | _ => false
  end.

(** [resultAll Q m]: if [m] returns, what it returns satisfies [Q]. *)
Definition resultAll {A} (Q : A -> Prop) (m : M A) : Prop :=
  match result m with
  | Ok a => Q a
  | Throw _ => True
  end.

(** The run answers, with one of the listed statuses. *)
Definition answersWith (statuses : list nat) (run : M Response) : Prop :=
  exists response,
    result run = Ok response /\ In (response_status response) statuses.

(** The three headers the client sends when the caller adds none. *)
Definition defaultHeaders (tok : string) : list (string * string) :=
  [("Authorization", "Bearer " ++ tok);
   ("Accept", "application/json");
   ("Content-Type", "application/json")].

(** The [GET] request the client sends for [endpoint]. *)
Definition getRequest (canvasUrl tok endpoint : string) : event :=
  EvFetch (normalizeCanvasUrl canvasUrl ++ "api/v1/" ++ endpoint)
    (mkInit None None (defaultHeaders tok)).

(** The text a network failure is rewritten to. *)
Definition networkErrorText (url : string) : string :=
  "Network error when connecting to Canvas API at " ++ url
  ++ ". Please check your Canvas URL and network connection.".

(** The error that the [catch] block of [request] passes on for a caught
    [e], when it passes one on. *)
Definition surfaced (url : string) (e : exn) : exn :=
  match e with
  | JsError message =>
      if String.eqb message "Failed to fetch"
      then JsError (networkErrorText url)
      else e
  | Thrown shown => JsError ("Failed to connect to Canvas API: " ++ shown)
  end.

(** The status line [request] falls back to for a response. *)
Definition statusLine (response : FetchResponse) : string :=
  "Canvas API error: " ++ showNat (status response) ++ " "
  ++ statusText response.

Module MoreSamples.

(** Canvas refuses every request with a JSON error body. *)
Definition refusing (message : string)
  : string -> RequestInit -> outcome FetchResponse :=
  fun _ _ =>
    Ok (mkFetchResponse false 401 "Unauthorized"
          (Ok (JObj [("errors", JArr [JObj [("message", JStr message)]])]))).

(** Canvas refuses every request with a body that is not JSON. *)
Definition refusingPlainly : string -> RequestInit -> outcome FetchResponse :=
  fun _ _ =>
    Ok (mkFetchResponse false 502 "Bad Gateway"
          (Throw (JsError "Unexpected token <"))).

(** Canvas answers every request with [v]. *)
Definition answering (v : json)
  : string -> RequestInit -> outcome FetchResponse :=
  fun _ _ => Ok (Sample.okJson v).

(** Canvas answers with a success status and a body that is not JSON. *)
Definition garbling : string -> RequestInit -> outcome FetchResponse :=
  fun _ _ =>
    Ok (mkFetchResponse true 200 "OK" (Throw (JsError "Unexpected end"))).

Definition canvasWorld (net : string -> RequestInit -> outcome FetchResponse)
  : World :=
  Sample.world Sample.storedRow Sample.backup net (Ok "").

Definition signedOutWorld : World :=
  mkWorld (Ok None) (fun _ => Sample.storedRow) (Ok Sample.backup)
    Sample.offline (fun _ _ _ _ => Ok "{}") Sample.parseOnlyEmptyObject
    (fun _ => "{}") Sample.plainQuery (fun what => "TypeError: " ++ what).

(** The settings query throws; the metadata bag is complete. *)
Definition brokenTableWorld : World :=
  Sample.world (Throw (JsError "relation does not exist")) Sample.backup
    Sample.offline (Ok "").

Definition gradeUpdate : json :=
  JObj [("submission",
          JObj [("posted_grade", JStr "95");
                ("comment", JObj [("text_comment", JStr "Great work")])])].

Definition gradeRequest : Request := mkRequest [] (Ok gradeUpdate).

Definition includeRequest : Request :=
  mkRequest [("include", "user,rubric_assessment")] (Ok JNull).

Definition connectionRequest : Request :=
  mkRequest []
    (Ok (JObj [("canvasUrl", JStr "canvas.example.edu");
               ("canvasToken", JStr "secret")])).

(** A parser that accepts what starts with a scheme. *)
Definition schemeOnly (url : string) : bool :=
  startsWith url "http://" || startsWith url "https://".

Definition canvasUser : json :=
  JObj [("id", JNum "5"); ("name", JStr "Ada");
        ("login_id", JStr "ada@example.edu")].

End MoreSamples.

(** * Properties *)

(** ** String lemmas *)

Section StringFacts.

Lemma append_empty_r (s : string) : s ++ "" = s.
Proof. induction s as [|c s IH]; simpl; [reflexivity | now rewrite IH]. Qed.

Lemma append_assoc (a b c : string) : (a ++ b) ++ c = a ++ (b ++ c).
Proof. induction a as [|x a IH]; simpl; [reflexivity | now rewrite IH]. Qed.

Lemma length_append (a b : string) :
  String.length (a ++ b) = String.length a + String.length b.
Proof. induction a as [|x a IH]; simpl; [reflexivity | now rewrite IH]. Qed.

Lemma prefix_refl (p : string) : String.prefix p p = true.
Proof.
  induction p as [|c p IH]; simpl; [reflexivity|].
  destruct (ascii_dec c c); [exact IH | congruence].
Qed.

Lemma prefix_append (p s t : string) :
  String.prefix p s = true -> String.prefix p (s ++ t) = true.
Proof.
  revert s; induction p as [|c p IH]; intros s H.
  - destruct (s ++ t); reflexivity.
  - destruct s as [|d s]; simpl in *; [discriminate|].
    destruct (ascii_dec c d); [now apply IH | discriminate].
Qed.

Lemma prefix_append_self (p t : string) : String.prefix p (p ++ t) = true.
Proof. apply prefix_append, prefix_refl. Qed.

Lemma startsWith_append (s p t : string) :
  startsWith s p = true -> startsWith (s ++ t) p = true.
Proof. apply prefix_append. Qed.

Lemma endsWith_refl (s : string) : endsWith s s = true.
Proof.
  destruct s as [|c s]; [reflexivity|].
  cbn [endsWith]. now rewrite String.eqb_refl.
Qed.

Lemma endsWith_append (s suf : string) : endsWith (s ++ suf) suf = true.
Proof.
  induction s as [|c s IH]; simpl.
  - apply endsWith_refl.
  - rewrite IH. apply orb_true_r.
Qed.

Lemma trailingSlashes_le (s : string) : trailingSlashes s <= String.length s.
Proof.
  induction s as [|c s IH]; simpl; [lia|].
  destruct (Ascii.eqb c "/" && Nat.eqb (trailingSlashes s) (String.length s)); lia.
Qed.

Lemma trailingSlashes_snoc (s : string) :
  trailingSlashes (s ++ "/") = S (trailingSlashes s).
Proof.
  induction s as [|c s IH]; [reflexivity|].
  cbn [append trailingSlashes].
  rewrite IH, length_append. cbn [String.length].
  replace (String.length s + 1) with (S (String.length s)) by lia.
  cbn [Nat.eqb].
  destruct (Ascii.eqb c "/" && Nat.eqb (trailingSlashes s) (String.length s));
    reflexivity.
Qed.

Lemma eqb_single (c d : ascii) (rest : string) :
  String.eqb (String c rest) (String d EmptyString)
  = Ascii.eqb c d && Nat.eqb (String.length rest) 0.
Proof.
  cbn [String.eqb].
  destruct (Ascii.eqb c d); [|reflexivity].
  destruct rest; reflexivity.
Qed.

Lemma endsWith_slash_trailing (s : string) :
  endsWith s "/" = negb (Nat.eqb (trailingSlashes s) 0).
Proof.
  induction s as [|c s IH]; [reflexivity|].
  cbn [endsWith trailingSlashes].
  rewrite IH, eqb_single.
  pose proof (trailingSlashes_le s) as Hle.
  destruct (trailingSlashes s) as [|n] eqn:En.
  - rewrite orb_false_r.
    rewrite (Nat.eqb_sym (String.length s) 0).
    destruct (Ascii.eqb c "/" && Nat.eqb 0 (String.length s)); reflexivity.
  - rewrite orb_true_r.
    destruct (Ascii.eqb c "/" && Nat.eqb (S n) (String.length s));
      reflexivity.
Qed.

End StringFacts.

(** ** Properties of [normalizeCanvasUrl] *)

Lemma ensureProtocol_has_scheme (url : string) :
  startsWith (ensureProtocol url) "http://" = true
  \/ startsWith (ensureProtocol url) "https://" = true.
Proof.
  unfold ensureProtocol.
  destruct (startsWith url "http://") eqn:H1; simpl; [now left|].
  destruct (startsWith url "https://") eqn:H2; simpl; [now right|].
  right. exact (prefix_append_self "https://" url).
Qed.

Lemma ensureProtocol_fixed (url : string) :
  startsWith url "http://" = true \/ startsWith url "https://" = true ->
  ensureProtocol url = url.
Proof.
  unfold ensureProtocol.
  intros [H | H]; rewrite H; simpl; [reflexivity|].
  now rewrite andb_false_r.
Qed.

Lemma normalizeCanvasUrl_has_scheme (url : string) :
  startsWith (normalizeCanvasUrl url) "http://" = true
  \/ startsWith (normalizeCanvasUrl url) "https://" = true.
Proof.
  unfold normalizeCanvasUrl.
  destruct (ensureProtocol_has_scheme url) as [H | H];
    destruct (endsWith (ensureProtocol url) "/"); simpl; auto;
    [left | right]; now apply startsWith_append.
Qed.

Lemma normalizeCanvasUrl_endsWith_slash (url : string) :
  endsWith (normalizeCanvasUrl url) "/" = true.
Proof.
  unfold normalizeCanvasUrl.
  destruct (endsWith (ensureProtocol url) "/") eqn:E; simpl.
  - exact E.
  - apply endsWith_append.
Qed.

Lemma normalizeCanvasUrl_fixed (url : string) :
  (startsWith url "http://" = true \/ startsWith url "https://" = true) ->
  endsWith url "/" = true ->
  normalizeCanvasUrl url = url.
Proof.
  intros Hs He. unfold normalizeCanvasUrl.
  rewrite (ensureProtocol_fixed url Hs), He. reflexivity.
Qed.

Lemma normalizeCanvasUrl_trailingSlashes (url : string) :
  trailingSlashes (normalizeCanvasUrl url)
  = Nat.max 1 (trailingSlashes (ensureProtocol url)).
Proof.
  unfold normalizeCanvasUrl.
  rewrite endsWith_slash_trailing, negb_involutive.
  destruct (Nat.eqb (trailingSlashes (ensureProtocol url)) 0) eqn:E.
  - apply Nat.eqb_eq in E. rewrite trailingSlashes_snoc, E. reflexivity.
  - apply Nat.eqb_neq in E. lia.
Qed.

(** C7: [normalizeCanvasUrl] maps "foo.edu", "https://foo.edu" and
    "https://foo.edu/" to "https://foo.edu/", and applying it twice gives
    the same as applying it once, for every input. *)
Theorem normalizeCanvasUrl_examples_idempotent :
  normalizeCanvasUrl "foo.edu" = "https://foo.edu/"
  /\ normalizeCanvasUrl "https://foo.edu" = "https://foo.edu/"
  /\ normalizeCanvasUrl "https://foo.edu/" = "https://foo.edu/"
  /\ forall url : string,
       normalizeCanvasUrl (normalizeCanvasUrl url) = normalizeCanvasUrl url.
Proof.
  repeat split; try reflexivity.
  intro url. apply normalizeCanvasUrl_fixed.
  - apply normalizeCanvasUrl_has_scheme.
  - apply normalizeCanvasUrl_endsWith_slash.
Qed.

(** C3, as stated, fails: a base URL that ends in two slashes keeps both,
    and the request URL then has two slashes before [api]. *)
Lemma normalizeCanvasUrl_keeps_double_slash :
  trailingSlashes (normalizeCanvasUrl "https://foo.edu//") = 2
  /\ requestUrl (createCanvasApiClient "https://foo.edu//" "secret") "courses"
     = "https://foo.edu//api/v1/courses".
Proof. split; reflexivity. Qed.

(** C3, amended: the request URL is the normalised base URL, then
    "api/v1/", then the endpoint without one leading slash; the normalised
    base URL always ends in a slash, and it ends in as many slashes as the
    URL with its scheme did, or in one if that had none. *)
Theorem requestUrl_shape (canvasUrl tok endpoint : string) :
  requestUrl (createCanvasApiClient canvasUrl tok) endpoint
  = normalizeCanvasUrl canvasUrl ++ "api/v1/" ++ stripLeadingSlash endpoint
  /\ endsWith (normalizeCanvasUrl canvasUrl) "/" = true
  /\ trailingSlashes (normalizeCanvasUrl canvasUrl)
     = Nat.max 1 (trailingSlashes (ensureProtocol canvasUrl)).
Proof.
  split; [reflexivity|]. split.
  - apply normalizeCanvasUrl_endsWith_slash.
  - apply normalizeCanvasUrl_trailingSlashes.
Qed.

(** ** Reasoning about runs *)

Section Runs.

Context {A B : Type}.

Lemma result_ret (a : A) : result (ret a) = Ok a.
Proof. reflexivity. Qed.

Lemma result_bind (m : M A) (k : A -> M B) :
  result (bind m k)
  = match result m with
    | Ok a => result (k a)
    | Throw e => Throw e
    end.
Proof.
  destruct m as [[a|e] l]; simpl; [|reflexivity].
  destruct (k a); reflexivity.
Qed.

Lemma trace_bind (m : M A) (k : A -> M B) :
  trace (bind m k)
  = (trace m ++ match result m with
                | Ok a => trace (k a)
                | Throw _ => []
                end)%list.
Proof.
  destruct m as [[a|e] l]; simpl.
  - destruct (k a); reflexivity.
  - now rewrite app_nil_r.
Qed.

Lemma result_tryCatch (m : M A) (h : exn -> M A) :
  result (tryCatch m h)
  = match result m with
    | Ok a => Ok a
    | Throw e => result (h e)
    end.
Proof.
  destruct m as [[a|e] l]; simpl; [reflexivity|].
  destruct (h e); reflexivity.
Qed.

Lemma trace_tryCatch (m : M A) (h : exn -> M A) :
  trace (tryCatch m h)
  = (trace m ++ match result m with
                | Ok _ => []
                | Throw e => trace (h e)
                end)%list.
Proof.
  destruct m as [[a|e] l]; simpl.
  - now rewrite app_nil_r.
  - destruct (h e); reflexivity.
Qed.

Lemma result_call (ev : event) (answer : outcome A) :
  result (call ev answer) = answer.
Proof. reflexivity. Qed.

Lemma result_settle (o : outcome A) : result (settle o) = o.
Proof. reflexivity. Qed.

End Runs.

Lemma result_console (level : consoleLevel) (text : string)
  (detail : option exn) : result (console level text detail) = Ok tt.
Proof. reflexivity. Qed.

Create Rewrite HintDb run.
#[local] Hint Rewrite @result_ret @result_bind @result_tryCatch @result_call
  @result_settle result_console : run.

Section TraceAll.

Context {A B : Type}.
Variable P : event -> Prop.

Lemma traceAll_ret (a : A) : traceAll P (ret a).
Proof. constructor. Qed.

Lemma traceAll_throw (e : exn) : traceAll P (@throw A e).
Proof. constructor. Qed.

Lemma traceAll_settle (o : outcome A) : traceAll P (settle o).
Proof. constructor. Qed.

Lemma traceAll_call (ev : event) (answer : outcome A) :
  P ev -> traceAll P (call ev answer).
Proof. intro H. repeat constructor. exact H. Qed.

Lemma traceAll_bind (m : M A) (k : A -> M B) :
  traceAll P m -> (forall a, result m = Ok a -> traceAll P (k a)) ->
  traceAll P (bind m k).
Proof.
  unfold traceAll. intros Hm Hk. rewrite trace_bind.
  apply Forall_app. split; [exact Hm|].
  destruct (result m); [now apply Hk | constructor].
Qed.

Lemma traceAll_tryCatch (m : M A) (h : exn -> M A) :
  traceAll P m -> (forall e, result m = Throw e -> traceAll P (h e)) ->
  traceAll P (tryCatch m h).
Proof.
  unfold traceAll. intros Hm Hh. rewrite trace_tryCatch.
  apply Forall_app. split; [exact Hm|].
  destruct (result m); [constructor | now apply Hh].
Qed.

End TraceAll.

Lemma traceAll_console (P : event -> Prop) (level : consoleLevel)
  (text : string) (detail : option exn) :
  P (EvConsole level text detail) -> traceAll P (console level text detail).
Proof. intro H. repeat constructor. exact H. Qed.

Lemma traceAll_filter_nil {A} (f : event -> bool) (m : M A) :
  traceAll (fun e => f e = false) m -> filter f (trace m) = [].
Proof.
  unfold traceAll. induction (trace m) as [|e l IH]; intro H; [reflexivity|].
  inversion H as [|? ? He Hl]; subst. simpl. rewrite He. now apply IH.
Qed.

Lemma traceAll_filter {A} (P : event -> Prop) (f : event -> bool) (m : M A) :
  traceAll P m -> Forall P (filter f (trace m)).
Proof.
  unfold traceAll. intro H. apply Forall_forall. intros e He.
  apply filter_In in He. destruct He as [He _].
  revert e He. now apply Forall_forall.
Qed.

(** Splits a goal about the trace of a composite run along the structure
    of the run, leaving the facts about single events. *)
Ltac trace_all :=
  repeat match goal with
    | |- traceAll _ (ret _) => apply traceAll_ret
    | |- traceAll _ (throw _) => apply traceAll_throw
    | |- traceAll _ (settle _) => apply traceAll_settle
    | |- traceAll _ (console _ _ _) => apply traceAll_console
    | |- traceAll _ (call _ _) => apply traceAll_call
    | |- traceAll _ (bind _ _) => apply traceAll_bind; [|intros]
    | |- traceAll _ (tryCatch _ _) => apply traceAll_tryCatch; [|intros]
    | |- traceAll _ (if ?b then _ else _) => destruct b
    | |- traceAll _ (match ?x with _ => _ end) => destruct x
    end.

(** ** Credential resolution *)

Lemma usable_Some (a b : option string) (u t : string) :
  usable (a, b) = Some (u, t) ->
  a = Some u /\ b = Some t /\ truthyStr a = true /\ truthyStr b = true.
Proof.
  unfold usable. destruct a as [x|], b as [y|]; try discriminate.
  destruct (truthyStr (Some x)) eqn:Hx, (truthyStr (Some y)) eqn:Hy;
    simpl; try discriminate.
  intro H. inversion H; subst. auto.
Qed.

Lemma usable_None (a b : option string) :
  usable (a, b) = None ->
  negb (truthyStr a) || negb (truthyStr b) = true.
Proof.
  unfold usable. destruct a as [x|], b as [y|]; try reflexivity.
  - destruct (truthyStr (Some x)), (truthyStr (Some y)); simpl;
      try reflexivity; discriminate.
  - intros _. simpl. apply orb_true_r.
Qed.

Lemma usable_truthy (a b : option string) :
  negb (truthyStr a) || negb (truthyStr b) = true -> usable (a, b) = None.
Proof.
  unfold usable. destruct a as [x|], b as [y|]; try reflexivity.
  intro H. rewrite H. reflexivity.
Qed.

Lemma resolveCredentials_result (W : World) (session : Session) :
  result (resolveCredentials W session)
  = if negb (truthyStr (fst (tableColumns W session)))
       || negb (truthyStr (snd (tableColumns W session)))
    then match getUser W with
         | Ok userData =>
             match metadataPair W with
             | Some (u, t) => Ok (Some u, Some t)
             | None => Ok (tableColumns W session)
             end
         | Throw e => Throw e
         end
    else Ok (tableColumns W session).
Proof.
  unfold resolveCredentials, tableColumns, settingsRow, metadataPair.
  rewrite result_bind, result_tryCatch, result_bind, result_call.
  assert (Hmeta : forall c : option string * option string,
    result
      (userData <- call EvGetUser (getUser W) ;;
       (let userMetadata :=
          match userData with
          | Some m => m
          | None => mkMeta None None
          end in
        if truthyStr (meta_canvas_url userMetadata)
           && truthyStr (meta_canvas_token userMetadata)
        then ret (meta_canvas_url userMetadata,
                  meta_canvas_token userMetadata)
        else ret c))
    = match getUser W with
      | Ok _ =>
          match match getUser W with
                | Ok (Some m) => usable (meta_canvas_url m, meta_canvas_token m)
                | _ => None
                end with
          | Some (u, t) => Ok (Some u, Some t)
          | None => Ok c
          end
      | Throw e => Throw e
      end).
  { intro c. rewrite result_bind, result_call.
    destruct (getUser W) as [[m|]|e]; try reflexivity.
    cbv zeta. unfold usable.
    destruct (meta_canvas_url m) as [mu|], (meta_canvas_token m) as [mt|];
      try reflexivity.
    - destruct (truthyStr (Some mu)), (truthyStr (Some mt)); reflexivity.
    - simpl. rewrite andb_false_r. reflexivity. }
  destruct (selectUserSettings W (session_user_id session)) as [q|e].
  - destruct (error q), (data q) as [row|]; cbn [result fst snd ret];
      try (simpl negb; simpl orb; cbv iota; apply Hmeta).
    destruct (negb (truthyStr (canvas_url row))
              || negb (truthyStr (canvas_token row))); [apply Hmeta|].
    reflexivity.
  - rewrite result_bind, result_console. cbn [result fst snd ret].
    simpl negb; simpl orb; cbv iota. apply Hmeta.
Qed.

Lemma credentialsOf_first_match (W : World) (session : Session) :
  credentialsOf W session
  = match settingsPair W session with
    | Some p => Some p
    | None => metadataPair W
    end.
Proof.
  unfold credentialsOf. rewrite resolveCredentials_result.
  assert (Hmeta : match metadataPair W with
                  | Some (u, t) => usable (Some u, Some t)
                  | None => None
                  end = metadataPair W).
  { unfold metadataPair.
    destruct (getUser W) as [[m|]|e]; try reflexivity.
    destruct (usable (meta_canvas_url m, meta_canvas_token m))
      as [[u t]|] eqn:Hm; [|reflexivity].
    destruct (usable_Some _ _ _ _ Hm) as (Hmu & Hmt & _).
    now rewrite <- Hmu, <- Hmt. }
  unfold settingsPair, tableColumns.
  destruct (settingsRow W session) as [row|]; cbn [fst snd].
  - destruct (usable (canvas_url row, canvas_token row)) as [[u t]|] eqn:Hu.
    + destruct (usable_Some _ _ _ _ Hu) as (_ & _ & H1 & H2).
      rewrite H1, H2. exact Hu.
    + rewrite (usable_None _ _ Hu).
      destruct (getUser W) as [userData|e] eqn:Hg.
      * destruct (metadataPair W) as [[u t]|]; [exact Hmeta | exact Hu].
      * unfold metadataPair. now rewrite Hg.
  - simpl orb. cbv iota.
    destruct (getUser W) as [userData|e] eqn:Hg.
    + destruct (metadataPair W) as [[u t]|]; [exact Hmeta | reflexivity].
    + unfold metadataPair. now rewrite Hg.
Qed.

(** ** Which requests a handler sends to Canvas *)

Lemma usesCredentials_onlyAboutFetch (u t : string) :
  onlyAboutFetch (usesCredentials u t).
Proof. intros [] H; try exact I. discriminate. Qed.

Lemma noFetch_onlyAboutFetch : onlyAboutFetch (fun e => isFetch e = false).
Proof. intros e H. exact H. Qed.

Ltac quiet_event H := apply H; reflexivity.

Section CredentialedRuns.

Variable W : World.
Variable P : event -> Prop.
Hypothesis HP : onlyAboutFetch P.

Lemma resolveCredentials_quiet (session : Session) :
  traceAll P (resolveCredentials W session).
Proof.
  unfold resolveCredentials. trace_all; quiet_event HP.
Qed.

Lemma withCredentials_traceAll (k : string -> string -> M Response) :
  (forall session u t,
      getSession W = Ok (Some session) ->
      credentialsOf W session = Some (u, t) ->
      traceAll P (k u t)) ->
  traceAll P (withCredentials W k).
Proof.
  intro Hk. unfold withCredentials.
  apply traceAll_bind; [apply traceAll_call; quiet_event HP|].
  intros [session|] Hs; [|apply traceAll_ret].
  rewrite result_call in Hs.
  apply traceAll_bind; [apply resolveCredentials_quiet|].
  intros credentials Hc.
  destruct (usable credentials) as [[u t]|] eqn:Hu; [|apply traceAll_ret].
  apply (Hk session); [exact Hs|].
  unfold credentialsOf. now rewrite Hc.
Qed.

Lemma unexpected_quiet (text : string) (e : exn) :
  traceAll P (unexpected text e).
Proof. unfold unexpected. trace_all; quiet_event HP. Qed.

End CredentialedRuns.

Lemma usesCredentials_respected (W : World) (canvasUrl canvasToken : string) :
  clientRespects (usesCredentials canvasUrl canvasToken) W
    (createCanvasApiClient canvasUrl canvasToken).
Proof.
  intros endpoint options throwOnError Hh.
  unfold request, requestCatch. trace_all; try exact I.
  split.
  - unfold requestUrl, createCanvasApiClient. cbn [baseUrl].
    rewrite <- append_assoc. apply prefix_append_self.
  - cbn [init_headers]. unfold requestHeaders. rewrite Hh. reflexivity.
Qed.

Section ClientOperationsRespect.

Variable W : World.
Variable P : event -> Prop.
Variable client : CanvasApiClient.
Hypothesis HP : onlyAboutFetch P.
Hypothesis Hclient : clientRespects P W client.

Lemma getSubmission_respects (c a u : string) (include : list string) :
  traceAll P (getSubmission W client c a u include).
Proof. apply Hclient. reflexivity. Qed.

Lemma getAssignment_respects (c a : string) :
  traceAll P (getAssignment W client c a).
Proof.
  unfold getAssignment. trace_all; try quiet_event HP.
  apply Hclient. reflexivity.
Qed.

Lemma updateSubmissionGrade_respects (c a u : string) (d : json) :
  traceAll P (updateSubmissionGrade W client c a u d).
Proof. apply Hclient. reflexivity. Qed.

Lemma getAssignmentSubmissions_respects (c a : string)
  (include : list string) :
  traceAll P (getAssignmentSubmissions W client c a include).
Proof. apply Hclient. reflexivity. Qed.

Lemma getCourseAssignments_respects (c : string)
  (include : list string) (bucket : string) (ids : list string) :
  traceAll P (getCourseAssignments W client c include bucket ids).
Proof. apply Hclient. reflexivity. Qed.

Lemma getCourses_respects (include : list string) (es : string)
  (state : list string) (et : string) :
  traceAll P (getCourses W client include es state et).
Proof. apply Hclient. reflexivity. Qed.

End ClientOperationsRespect.

Section HandlersRespect.

Variable W : World.
Variable P : event -> Prop.
Hypothesis HP : onlyAboutFetch P.
Hypothesis Hcred :
  forall session u t,
    getSession W = Ok (Some session) ->
    credentialsOf W session = Some (u, t) ->
    clientRespects P W (createCanvasApiClient u t).

Variable request : Request.
Variables courseId assignmentId userId : string.

Lemma assignProp_quiet (v : json) (k : string) (x : json) :
  traceAll P (assignProp W v k x).
Proof. unfold assignProp. trace_all. Qed.

Ltac handler_trace :=
  trace_all; try quiet_event HP;
  try apply unexpected_quiet; try exact HP;
  try (apply withCredentials_traceAll; [exact HP|];
       let session := fresh "session" in
       let Hs := fresh "Hs" in
       let Hc := fresh "Hc" in
       intros session ? ? Hs Hc;
       pose proof (Hcred _ _ _ Hs Hc);
       trace_all; try quiet_event HP).

Lemma submissionFallback_respects (client : CanvasApiClient) (e : exn) :
  clientRespects P W client ->
  traceAll P (submissionFallback W client courseId assignmentId userId e).
Proof.
  intro Hclient. unfold submissionFallback. trace_all; try quiet_event HP.
  now apply getAssignment_respects.
Qed.

Lemma GET_submission_respects :
  traceAll P (GET_submission W request courseId assignmentId userId).
Proof.
  unfold GET_submission. handler_trace.
  - now apply getSubmission_respects.
  - apply assignProp_quiet.
  - now apply submissionFallback_respects.
Qed.

Lemma PUT_submission_respects :
  traceAll P (PUT_submission W request courseId assignmentId userId).
Proof.
  unfold PUT_submission. handler_trace.
  now apply updateSubmissionGrade_respects.
Qed.

Lemma GET_submissions_respects :
  traceAll P (GET_submissions W request courseId assignmentId).
Proof.
  unfold GET_submissions. handler_trace.
  now apply getAssignmentSubmissions_respects.
Qed.

Lemma GET_assignment_respects :
  traceAll P (GET_assignment W request courseId assignmentId).
Proof.
  unfold GET_assignment. handler_trace.
  now apply getAssignment_respects.
Qed.

Lemma GET_assignments_respects :
  traceAll P (GET_assignments W request courseId).
Proof.
  unfold GET_assignments. handler_trace.
  now apply getCourseAssignments_respects.
Qed.

Lemma GET_courses_respects : traceAll P (GET_courses W request).
Proof.
  unfold GET_courses. handler_trace.
  now apply getCourses_respects.
Qed.

Lemma canvasRouteRuns_respect :
  Forall (traceAll P)
    (canvasRouteRuns W request courseId assignmentId userId).
Proof.
  repeat constructor.
  - apply GET_submission_respects.
  - apply PUT_submission_respects.
  - apply GET_submissions_respects.
  - apply GET_assignment_respects.
  - apply GET_assignments_respects.
  - apply GET_courses_respects.
Qed.

End HandlersRespect.

(** ** What the handlers answer *)

Lemma eqb_empty_false (s : string) : s <> "" -> String.eqb s "" = false.
Proof. intro H. now apply String.eqb_neq. Qed.

Lemma withCredentials_result (W : World) (k : string -> string -> M Response)
  (session : Session) :
  getSession W = Ok (Some session) ->
  result (withCredentials W k)
  = match result (resolveCredentials W session) with
    | Ok credentials =>
        match usable credentials with
        | Some (u, t) => result (k u t)
        | None => Ok credentialsMissing
        end
    | Throw e => Throw e
    end.
Proof.
  intro Hs. unfold withCredentials.
  rewrite result_bind, result_call, Hs, result_bind.
  destruct (result (resolveCredentials W session)) as [c|e]; [|reflexivity].
  destruct (usable c) as [[u t]|]; reflexivity.
Qed.

Lemma withCredentials_found (W : World) (k : string -> string -> M Response)
  (session : Session) (u t : string) :
  getSession W = Ok (Some session) ->
  credentialsOf W session = Some (u, t) ->
  result (withCredentials W k) = result (k u t).
Proof.
  intros Hs Hc. rewrite (withCredentials_result W k session Hs).
  unfold credentialsOf in Hc.
  destruct (result (resolveCredentials W session)) as [c|e]; [|discriminate].
  now rewrite Hc.
Qed.

Lemma withCredentials_missing (W : World) (k : string -> string -> M Response)
  (session : Session) :
  getSession W = Ok (Some session) ->
  credentialsOf W session = None ->
  result (withCredentials W k)
  = match getUser W with
    | Ok _ => Ok credentialsMissing
    | Throw e => Throw e
    end.
Proof.
  intros Hs Hc. rewrite (withCredentials_result W k session Hs).
  unfold credentialsOf in Hc. rewrite resolveCredentials_result in *.
  destruct (negb (truthyStr (fst (tableColumns W session)))
            || negb (truthyStr (snd (tableColumns W session)))) eqn:Ht.
  - destruct (getUser W) as [ud|e]; [|reflexivity].
    destruct (metadataPair W) as [[u t]|]; now rewrite Hc.
  - exfalso. destruct (tableColumns W session) as [x y].
    cbn [fst snd] in Ht. rewrite (usable_None _ _ Hc) in Ht. discriminate.
Qed.

Lemma unexpected_result (text : string) (e : exn) :
  result (unexpected text e)
  = Ok (NextResponse_json
          (errorBody (messageOr e "An unexpected error occurred")) 500).
Proof. reflexivity. Qed.

Lemma assocSet_fresh {V : Type} (k : string) (v : V) (l : list (string * V)) :
  assocGet k l = None -> assocSet k v l = (l ++ [(k, v)])%list.
Proof.
  induction l as [|[k' v'] l IH]; simpl; [reflexivity|].
  destruct (String.eqb k' k); [discriminate|].
  intro H. now rewrite IH.
Qed.

Lemma submissionFallback_result (W : World) (client : CanvasApiClient)
  (courseId assignmentId userId : string) (e : exn) :
  result (submissionFallback W client courseId assignmentId userId e)
  = match result (getAssignment W client courseId assignmentId) with
    | Ok assignment =>
        Ok (NextResponse_json
              (degradedBody assignment assignmentId userId) 200)
    | Throw _ =>
        Ok (NextResponse_json
              (errorBody "Failed to fetch submission and assignment details")
              404)
    end.
Proof.
  unfold submissionFallback.
  rewrite result_bind, result_console, result_tryCatch, result_bind.
  destruct (result (getAssignment W client courseId assignmentId));
    reflexivity.
Qed.

Section SubmissionRoute.

Variable W : World.
Variable request : Request.
Variables courseId assignmentId userId : string.
Hypothesis HcourseId : courseId <> "".
Hypothesis HassignmentId : assignmentId <> "".
Hypothesis HuserId : userId <> "".
Variable session : Session.
Hypothesis Hsession : getSession W = Ok (Some session).

(** The GET handler once the credentials are known: what is left is the
    block around the submission fetch. *)
Lemma GET_submission_found (u t : string) :
  credentialsOf W session = Some (u, t) ->
  result (GET_submission W request courseId assignmentId userId)
  = match
      result
        (getSubmission W (createCanvasApiClient u t) courseId assignmentId
           userId (listParam request "include"
                     ["user"; "submission_comments"]))
    with
    | Ok submission =>
        if negb (truthy submission) then
          Ok (NextResponse_json (errorBody "Submission not found") 404)
        else if negb (truthyOpt (prop submission "user")) then
          match
            result (assignProp W submission "user" (placeholderUser userId))
          with
          | Ok s => Ok (NextResponse_json (JObj [("submission", s)]) 200)
          | Throw e =>
              result (submissionFallback W (createCanvasApiClient u t)
                        courseId assignmentId userId e)
          end
        else
          Ok (NextResponse_json (JObj [("submission", submission)]) 200)
    | Throw e =>
        result (submissionFallback W (createCanvasApiClient u t)
                  courseId assignmentId userId e)
    end.
Proof.
  intro Hc. unfold GET_submission.
  rewrite result_tryCatch.
  rewrite (eqb_empty_false _ HcourseId), (eqb_empty_false _ HassignmentId),
    (eqb_empty_false _ HuserId).
  cbn [orb].
  rewrite (withCredentials_found W _ session u t Hsession Hc).
  cbv zeta.
  rewrite result_tryCatch, result_bind.
  destruct (result (getSubmission W _ courseId assignmentId userId _))
    as [submission|e].
  - destruct (negb (truthy submission)); [reflexivity|].
    rewrite result_bind.
    destruct (negb (truthyOpt (prop submission "user"))); [|reflexivity].
    rewrite result_bind, result_console.
    destruct (result (assignProp W submission "user" _)); [reflexivity|].
    rewrite submissionFallback_result.
    destruct (result (getAssignment W _ courseId assignmentId));
      reflexivity.
  - rewrite submissionFallback_result.
    destruct (result (getAssignment W _ courseId assignmentId));
      reflexivity.
Qed.

Lemma PUT_submission_missing :
  credentialsOf W session = None ->
  result (PUT_submission W request courseId assignmentId userId)
  = match getUser W with
    | Ok _ => Ok credentialsMissing
    | Throw e =>
        Ok (NextResponse_json
              (errorBody (messageOr e "An unexpected error occurred")) 500)
    end.
Proof.
  intro Hc. unfold PUT_submission.
  rewrite result_tryCatch.
  rewrite (eqb_empty_false _ HcourseId), (eqb_empty_false _ HassignmentId),
    (eqb_empty_false _ HuserId).
  cbn [orb].
  rewrite (withCredentials_missing W _ session Hsession Hc).
  destruct (getUser W); reflexivity.
Qed.

End SubmissionRoute.

(** C1: when the submission fetch throws and the assignment fetch that
    follows succeeds, the GET submission handler answers with status 200
    and a body holding an error field, the assignment, and a placeholder
    submission with id "unknown", the user and assignment ids of the
    request, and a user whose id is [userId] and whose name is
    "Student <userId>". *)
Theorem GET_submission_degrades_to_assignment (W : World) (request : Request)
  (courseId assignmentId userId : string) (session : Session)
  (canvasUrl canvasToken : string) (e : exn) (assignment : json) :
  courseId <> "" -> assignmentId <> "" -> userId <> "" ->
  getSession W = Ok (Some session) ->
  credentialsOf W session = Some (canvasUrl, canvasToken) ->
  result
    (getSubmission W (createCanvasApiClient canvasUrl canvasToken)
       courseId assignmentId userId
       (listParam request "include" ["user"; "submission_comments"]))
  = Throw e ->
  result
    (getAssignment W (createCanvasApiClient canvasUrl canvasToken)
       courseId assignmentId)
  = Ok assignment ->
  result (GET_submission W request courseId assignmentId userId)
  = Ok (mkResponse 200
          (JObj [("error", JStr "Failed to fetch submission details");
                 ("assignment", assignment);
                 ("submission",
                   JObj [("id", JStr "unknown");
                         ("user_id", JStr userId);
                         ("assignment_id", JStr assignmentId);
                         ("user",
                           JObj [("id", JStr userId);
                                 ("name", JStr ("Student " ++ userId));
                                 ("sortable_name",
                                   JStr ("Student " ++ userId));
                                 ("avatar_url", JStr "")])])])).
Proof.
  intros Hc Ha Hu Hs Hcred Hsub Hasg.
  rewrite (GET_submission_found W request _ _ _ Hc Ha Hu session Hs _ _ Hcred).
  rewrite Hsub, submissionFallback_result, Hasg. reflexivity.
Qed.

Lemma GET_submission_degrades_to_assignment_witness :
  result
    (GET_submission
       (Sample.world Sample.storedRow Sample.backup Sample.onlyAssignment
          (Ok ""))
       Sample.emptyRequest "7" "9" "42")
  = Ok (mkResponse 200
          (JObj [("error", JStr "Failed to fetch submission details");
                 ("assignment", Sample.assignment9);
                 ("submission",
                   JObj [("id", JStr "unknown");
                         ("user_id", JStr "42");
                         ("assignment_id", JStr "9");
                         ("user",
                           JObj [("id", JStr "42");
                                 ("name", JStr "Student 42");
                                 ("sortable_name", JStr "Student 42");
                                 ("avatar_url", JStr "")])])])).
Proof.
  apply (GET_submission_degrades_to_assignment
           (Sample.world Sample.storedRow Sample.backup Sample.onlyAssignment
              (Ok ""))
           Sample.emptyRequest "7" "9" "42" Sample.teacher
           "canvas.example.edu" "secret" (JsError
             "Network error when connecting to Canvas API at https://canvas.example.edu/api/v1/courses/7/assignments/9/submissions/42?include=user,submission_comments. Please check your Canvas URL and network connection.")
           Sample.assignment9);
    solve [discriminate | reflexivity].
Defined.

(** C5: on the success path, a fetched submission object without a user
    field is returned with a user whose id is [userId] and whose name is
    the non-empty string "Student <userId>". *)
Theorem GET_submission_fills_missing_user (W : World) (request : Request)
  (courseId assignmentId userId : string) (session : Session)
  (canvasUrl canvasToken : string) (fields : list (string * json)) :
  courseId <> "" -> assignmentId <> "" -> userId <> "" ->
  getSession W = Ok (Some session) ->
  credentialsOf W session = Some (canvasUrl, canvasToken) ->
  result
    (getSubmission W (createCanvasApiClient canvasUrl canvasToken)
       courseId assignmentId userId
       (listParam request "include" ["user"; "submission_comments"]))
  = Ok (JObj fields) ->
  assocGet "user" fields = None ->
  result (GET_submission W request courseId assignmentId userId)
  = Ok (mkResponse 200
          (JObj [("submission",
                   JObj (fields ++
                         [("user",
                            JObj [("id", JStr userId);
                                  ("name", JStr ("Student " ++ userId));
                                  ("sortable_name",
                                    JStr ("Student " ++ userId));
                                  ("avatar_url", JStr "")])])%list)]))
  /\ "Student " ++ userId <> "".
Proof.
  intros Hc Ha Hu Hs Hcred Hsub Hnone.
  split; [|discriminate].
  rewrite (GET_submission_found W request _ _ _ Hc Ha Hu session Hs _ _ Hcred).
  rewrite Hsub. cbn [truthy negb prop truthyOpt].
  rewrite Hnone. cbn [truthyOpt negb assignProp result ret fst].
  now rewrite (assocSet_fresh _ _ _ Hnone).
Qed.

Lemma GET_submission_fills_missing_user_witness :
  result
    (GET_submission
       (Sample.world Sample.storedRow Sample.backup Sample.bareSubmission
          (Ok ""))
       Sample.emptyRequest "7" "9" "42")
  = Ok (mkResponse 200
          (JObj [("submission",
                   JObj [("id", JNum "31"); ("score", JNull);
                         ("user",
                           JObj [("id", JStr "42");
                                 ("name", JStr "Student 42");
                                 ("sortable_name", JStr "Student 42");
                                 ("avatar_url", JStr "")])])]))
  /\ "Student 42" <> "".
Proof.
  apply (GET_submission_fills_missing_user
           (Sample.world Sample.storedRow Sample.backup Sample.bareSubmission
              (Ok ""))
           Sample.emptyRequest "7" "9" "42" Sample.teacher
           "canvas.example.edu" "secret"
           [("id", JNum "31"); ("score", JNull)]);
    solve [discriminate | reflexivity].
Defined.

(** ** The request primitive *)

(** C2, as stated, fails: with [throwOnError] off, a request whose fetch
    is rejected with "Failed to fetch" returns [null] to its caller. *)
Lemma request_swallows_network_failure :
  fetch Sample.settledWorld
    (requestUrl Sample.client "users/42")
    (mkInit None None (requestHeaders Sample.client noOptions))
  = Throw (JsError "Failed to fetch")
  /\ result (request Sample.settledWorld Sample.client "users/42" noOptions
               false)
     = Ok JNull.
Proof. split; reflexivity. Qed.

(** C2, amended: when the fetch is rejected with the message "Failed to
    fetch", the request primitive rewrites the message to name the request
    URL and to suggest checking the Canvas URL and the network connection;
    with [throwOnError] on it throws the rewritten message to the caller,
    and with [throwOnError] off it writes it to the console as a warning
    and returns [null]. *)
Theorem request_network_failure (W : World) (client : CanvasApiClient)
  (endpoint : string) (options : RequestInit) :
  fetch W (requestUrl client endpoint)
    (mkInit (init_method options) (init_body options)
       (requestHeaders client options))
  = Throw (JsError "Failed to fetch") ->
  result (request W client endpoint options true)
  = Throw (JsError
             ("Network error when connecting to Canvas API at "
              ++ requestUrl client endpoint
              ++ ". Please check your Canvas URL and network connection."))
  /\ result (request W client endpoint options false) = Ok JNull
  /\ In (EvConsole LevelWarn
           ("Network error when connecting to Canvas API at "
            ++ requestUrl client endpoint
            ++ ". Please check your Canvas URL and network connection.")
           None)
        (trace (request W client endpoint options false)).
Proof.
  intro H. unfold request. repeat split.
  - autorewrite with run. rewrite H.
    unfold requestCatch. now autorewrite with run.
  - autorewrite with run. rewrite H.
    unfold requestCatch. now autorewrite with run.
  - unfold call, requestCatch. rewrite H. simpl. auto 10.
Qed.

Lemma request_network_failure_witness :
  result (request Sample.settledWorld Sample.client "users/42" noOptions true)
  = Throw (JsError
             "Network error when connecting to Canvas API at https://canvas.example.edu/api/v1/users/42. Please check your Canvas URL and network connection.")
  /\ result (request Sample.settledWorld Sample.client "users/42" noOptions
               false)
     = Ok JNull
  /\ In (EvConsole LevelWarn
           "Network error when connecting to Canvas API at https://canvas.example.edu/api/v1/users/42. Please check your Canvas URL and network connection."
           None)
        (trace (request Sample.settledWorld Sample.client "users/42"
                  noOptions false)).
Proof.
  apply (request_network_failure Sample.settledWorld Sample.client
           "users/42" noOptions).
  reflexivity.
Defined.

(** ** Where the credentials come from *)

Lemma truthyStr_Some (s : string) : s <> "" -> truthyStr (Some s) = true.
Proof. intro H. simpl. now rewrite (eqb_empty_false s H). Qed.

Lemma usable_intro (u t : string) :
  u <> "" -> t <> "" -> usable (Some u, Some t) = Some (u, t).
Proof.
  intros Hu Ht. unfold usable.
  now rewrite (truthyStr_Some u Hu), (truthyStr_Some t Ht).
Qed.

Lemma settingsPair_intro (W : World) (session : Session) (row : SettingsRow)
  (u t : string) :
  settingsRow W session = Some row ->
  canvas_url row = Some u -> canvas_token row = Some t ->
  u <> "" -> t <> "" ->
  settingsPair W session = Some (u, t).
Proof.
  intros Hrow Hu Ht Hune Htne. unfold settingsPair.
  rewrite Hrow, Hu, Ht. now apply usable_intro.
Qed.

Lemma settingsPair_fromSettings (W : World) (session : Session) (u t : string) :
  settingsPair W session = Some (u, t) -> fromSettings W session u t.
Proof.
  unfold settingsPair, fromSettings.
  destruct (settingsRow W session) as [row|]; [|discriminate].
  intro H. apply usable_Some in H. destruct H as (Hu & Ht & _).
  exists row. auto.
Qed.

Lemma metadataPair_fromMetadata (W : World) (u t : string) :
  metadataPair W = Some (u, t) -> fromMetadata W u t.
Proof.
  unfold metadataPair, fromMetadata.
  destruct (getUser W) as [[m|]|e]; try discriminate.
  intro H. apply usable_Some in H. destruct H as (Hu & Ht & _).
  exists m. auto.
Qed.

Lemma credentialsOf_source (W : World) (session : Session) (u t : string) :
  credentialsOf W session = Some (u, t) ->
  fromSettings W session u t \/ fromMetadata W u t.
Proof.
  rewrite credentialsOf_first_match.
  destruct (settingsPair W session) as [[u' t']|] eqn:Hs.
  - intro H. inversion H; subst. left. now apply settingsPair_fromSettings.
  - intro H. right. now apply metadataPair_fromMetadata.
Qed.

Section AllRoutes.

Variable W : World.
Variable request : Request.
Variables courseId assignmentId userId : string.
Variable session : Session.
Hypothesis Hsession : getSession W = Ok (Some session).

Lemma routes_use_resolved_credentials (u t : string) :
  credentialsOf W session = Some (u, t) ->
  Forall (fun run => Forall (usesCredentials u t) (canvasCalls run))
    (canvasRouteRuns W request courseId assignmentId userId).
Proof.
  intro Hc.
  eapply Forall_impl;
    [ intros run Hrun; apply (traceAll_filter _ isFetch run Hrun)
    | apply canvasRouteRuns_respect ].
  - apply usesCredentials_onlyAboutFetch.
  - intros session' u' t' Hs' Hc'.
    rewrite Hsession in Hs'. inversion Hs'; subst session'.
    rewrite Hc in Hc'. inversion Hc'; subst.
    apply usesCredentials_respected.
Qed.

Lemma routes_silent_without_credentials :
  credentialsOf W session = None ->
  Forall (fun run => filter isFetch (trace run) = [])
    (canvasRouteRuns W request courseId assignmentId userId).
Proof.
  intro Hc.
  eapply Forall_impl;
    [ intros run Hrun; apply (traceAll_filter_nil isFetch run Hrun)
    | apply canvasRouteRuns_respect ].
  - apply noFetch_onlyAboutFetch.
  - intros session' u' t' Hs' Hc'.
    rewrite Hsession in Hs'. inversion Hs'; subst session'.
    rewrite Hc in Hc'. discriminate.
Qed.

Hypothesis HcourseId : courseId <> "".
Hypothesis HassignmentId : assignmentId <> "".
Hypothesis HuserId : userId <> "".

Ltac missing_result Hc :=
  rewrite result_tryCatch;
  rewrite ?(eqb_empty_false _ HcourseId),
    ?(eqb_empty_false _ HassignmentId), ?(eqb_empty_false _ HuserId);
  cbn [orb]; cbv zeta;
  rewrite ?result_bind, ?result_console;
  rewrite (withCredentials_missing W _ session Hsession Hc);
  destruct (getUser W); reflexivity.

Lemma routes_refuse_without_credentials :
  credentialsOf W session = None ->
  Forall (refusedForCredentials W)
    (canvasRouteRuns W request courseId assignmentId userId).
Proof.
  intro Hc.
  pose proof (routes_silent_without_credentials Hc) as Hsilent.
  unfold canvasRouteRuns in *.
  repeat match goal with
         | H : Forall _ (_ :: _) |- _ =>
             let H1 := fresh "Hq" in
             let H2 := fresh "Hrest" in
             apply Forall_cons_iff in H; destruct H as [H1 H2]
         end.
  repeat (apply Forall_cons; [split; [assumption|]|]);
    [ unfold GET_submission | unfold PUT_submission
    | unfold GET_submissions | unfold GET_assignment
    | unfold GET_assignments | unfold GET_courses | constructor ];
    missing_result Hc.
Qed.

End AllRoutes.

(** C4, as stated, fails: a settings row whose URL column is the empty
    string has two non-null columns, and yet the credentials of the
    metadata bag are the ones the client is built from. *)
Lemma blank_settings_url_yields_to_metadata :
  settingsRow Sample.blankUrlWorld Sample.teacher
  = Some (mkRow (Some "") (Some "secret"))
  /\ credentialsOf Sample.blankUrlWorld Sample.teacher
     = Some ("https://backup.example.edu/", "backup-token")
  /\ canvasCalls (GET_assignments Sample.blankUrlWorld Sample.emptyRequest "7")
     = [EvFetch
          "https://backup.example.edu/api/v1/courses/7/assignments?include=submission_count,overrides&per_page=100"
          (mkInit None None
             [("Authorization", "Bearer backup-token");
              ("Accept", "application/json");
              ("Content-Type", "application/json")])].
Proof. repeat split. Qed.

(** C4, amended: when the settings row exists and its URL and token are
    neither null nor empty, credential resolution yields these two values
    whatever the metadata bag holds, and every request that any Canvas
    route handler sends is made with them. *)
Theorem settings_row_takes_precedence (W : World) (request : Request)
  (courseId assignmentId userId : string) (session : Session)
  (row : SettingsRow) (canvasUrl canvasToken : string) :
  getSession W = Ok (Some session) ->
  settingsRow W session = Some row ->
  canvas_url row = Some canvasUrl ->
  canvas_token row = Some canvasToken ->
  canvasUrl <> "" -> canvasToken <> "" ->
  credentialsOf W session = Some (canvasUrl, canvasToken)
  /\ Forall
       (fun run => Forall (usesCredentials canvasUrl canvasToken)
                     (canvasCalls run))
       (canvasRouteRuns W request courseId assignmentId userId).
Proof.
  intros Hs Hrow Hu Ht Hune Htne.
  assert (Hc : credentialsOf W session = Some (canvasUrl, canvasToken)).
  { rewrite credentialsOf_first_match.
    now rewrite (settingsPair_intro W session row _ _ Hrow Hu Ht Hune Htne). }
  split; [exact Hc|].
  now apply (routes_use_resolved_credentials W request _ _ _ session Hs).
Qed.

Lemma settings_row_takes_precedence_witness :
  credentialsOf Sample.settledWorld Sample.teacher
  = Some ("canvas.example.edu", "secret")
  /\ Forall
       (fun run => Forall (usesCredentials "canvas.example.edu" "secret")
                     (canvasCalls run))
       (canvasRouteRuns Sample.settledWorld Sample.emptyRequest "7" "9" "42").
Proof.
  apply (settings_row_takes_precedence Sample.settledWorld
           Sample.emptyRequest "7" "9" "42" Sample.teacher
           (mkRow (Some "canvas.example.edu") (Some "secret")));
    solve [discriminate | reflexivity].
Defined.

(** C8: an authenticated PUT grade update for which neither the settings
    table nor the user metadata holds a URL and token pair is answered
    with status 400 and the message "Canvas credentials not found. Please
    complete onboarding.", and Canvas is not called. *)
Theorem PUT_submission_without_credentials (W : World) (request : Request)
  (courseId assignmentId userId : string) (session : Session)
  (userData : option UserMetadata) :
  courseId <> "" -> assignmentId <> "" -> userId <> "" ->
  getSession W = Ok (Some session) ->
  settingsPair W session = None ->
  getUser W = Ok userData ->
  metadataPair W = None ->
  result (PUT_submission W request courseId assignmentId userId)
  = Ok (mkResponse 400
          (JObj [("error",
                   JStr "Canvas credentials not found. Please complete onboarding.")]))
  /\ canvasCalls (PUT_submission W request courseId assignmentId userId) = [].
Proof.
  intros Hc Ha Hu Hs Hset Huser Hmeta.
  assert (Hnone : credentialsOf W session = None).
  { rewrite credentialsOf_first_match. now rewrite Hset. }
  split.
  - rewrite (PUT_submission_missing W request _ _ _ Hc Ha Hu session Hs Hnone).
    now rewrite Huser.
  - pose proof (routes_silent_without_credentials W request courseId
                  assignmentId userId session Hs Hnone) as H.
    unfold canvasRouteRuns in H.
    apply Forall_cons_iff in H. destruct H as [_ H].
    apply Forall_cons_iff in H. destruct H as [H _]. exact H.
Qed.

Lemma PUT_submission_without_credentials_witness :
  result (PUT_submission Sample.bareWorld Sample.emptyRequest "7" "9" "42")
  = Ok (mkResponse 400
          (JObj [("error",
                   JStr "Canvas credentials not found. Please complete onboarding.")]))
  /\ canvasCalls
       (PUT_submission Sample.bareWorld Sample.emptyRequest "7" "9" "42")
     = [].
Proof.
  apply (PUT_submission_without_credentials Sample.bareWorld
           Sample.emptyRequest "7" "9" "42" Sample.teacher None);
    solve [discriminate | reflexivity].
Defined.

(** C10: the URL and the token a Canvas route handler works with are never
    taken from different sources.  Either both are columns of the settings
    row, or both are fields of the metadata bag, and every request to
    Canvas is made with that pair; or the handler does not call Canvas and
    answers with the 400 credentials-missing response (with 500 when the
    metadata lookup itself threw). *)
Theorem credentials_never_mixed (W : World) (request : Request)
  (courseId assignmentId userId : string) (session : Session) :
  courseId <> "" -> assignmentId <> "" -> userId <> "" ->
  getSession W = Ok (Some session) ->
  (exists canvasUrl canvasToken,
      credentialsOf W session = Some (canvasUrl, canvasToken)
      /\ (fromSettings W session canvasUrl canvasToken
          \/ fromMetadata W canvasUrl canvasToken)
      /\ Forall
           (fun run => Forall (usesCredentials canvasUrl canvasToken)
                         (canvasCalls run))
           (canvasRouteRuns W request courseId assignmentId userId))
  \/ (credentialsOf W session = None
      /\ Forall (refusedForCredentials W)
           (canvasRouteRuns W request courseId assignmentId userId)).
Proof.
  intros Hc Ha Hu Hs.
  destruct (credentialsOf W session) as [[canvasUrl canvasToken]|] eqn:Hcred.
  - left. exists canvasUrl, canvasToken. split; [reflexivity|]. split.
    + now apply credentialsOf_source.
    + now apply (routes_use_resolved_credentials W request _ _ _ session Hs).
  - right. split; [reflexivity|].
    now apply (routes_refuse_without_credentials W request _ _ _ session Hs).
Qed.

Lemma credentials_never_mixed_witness :
  (exists canvasUrl canvasToken,
      credentialsOf Sample.blankUrlWorld Sample.teacher
      = Some (canvasUrl, canvasToken)
      /\ (fromSettings Sample.blankUrlWorld Sample.teacher canvasUrl
            canvasToken
          \/ fromMetadata Sample.blankUrlWorld canvasUrl canvasToken)
      /\ Forall
           (fun run => Forall (usesCredentials canvasUrl canvasToken)
                         (canvasCalls run))
           (canvasRouteRuns Sample.blankUrlWorld Sample.emptyRequest
              "7" "9" "42"))
  \/ (credentialsOf Sample.blankUrlWorld Sample.teacher = None
      /\ Forall (refusedForCredentials Sample.blankUrlWorld)
           (canvasRouteRuns Sample.blankUrlWorld Sample.emptyRequest
              "7" "9" "42")).
Proof.
  apply (credentials_never_mixed Sample.blankUrlWorld Sample.emptyRequest
           "7" "9" "42" Sample.teacher);
    solve [discriminate | reflexivity].
Defined.

Section MonadLaws.

Context {A B : Type}.

Lemma bind_ret_l (a : A) (k : A -> M B) : bind (ret a) k = k a.
Proof. unfold bind, ret. destruct (k a). reflexivity. Qed.

Lemma bind_ext (m : M A) (k1 k2 : A -> M B) :
  (forall a, k1 a = k2 a) -> bind m k1 = bind m k2.
Proof.
  intro H. destruct m as [[a|e] l]; simpl; [|reflexivity].
  now rewrite H.
Qed.

Lemma call_ok_bind (ev : event) (a : A) (k : A -> M B) :
  bind (call ev (Ok a)) k = bind (emit ev) (fun _ => k a).
Proof. reflexivity. Qed.

End MonadLaws.

(** ** The grading route *)

Section GradingRoute.

Variable W : World.
Variable request : Request.

(** The part of the handler that follows the model's answer. *)
Lemma parse_step_result (text : string) :
  result
    (tryCatch
       (grading <- settle (JSON_parse W text) ;;
        ret (NextResponse_json grading 200))
       (fun e =>
          console LevelError "Error parsing AI response:" (Some e) ;;;
          ret (NextResponse_json
                 (JObj [("error", JStr "Failed to parse AI response");
                        ("rawResponse", JStr text)])
                 500)))
  = match JSON_parse W text with
    | Ok grading => Ok (NextResponse_json grading 200)
    | Throw _ =>
        Ok (NextResponse_json
              (JObj [("error", JStr "Failed to parse AI response");
                     ("rawResponse", JStr text)])
              500)
    end.
Proof.
  rewrite result_tryCatch, result_bind, result_settle.
  destruct (JSON_parse W text); reflexivity.
Qed.

Lemma POST_grade_submission_total :
  exists response,
    result (POST_grade_submission W request) = Ok response
    /\ (response_status response = 200
        \/ response_status response = 400
        \/ response_status response = 500).
Proof.
  unfold POST_grade_submission.
  rewrite result_tryCatch, result_bind, result_call.
  destruct (request_json request) as [body|e];
    [|rewrite unexpected_result; eexists; split; [reflexivity|]; auto].
  rewrite result_bind.
  destruct body; cbn [destructure result throw ret fst];
    try (rewrite unexpected_result; eexists; split; [reflexivity|]; auto);
    cbv zeta;
    match goal with
    | |- context [if ?b then _ else _] => destruct b
    end;
    try (eexists; split; [reflexivity|]; cbn; auto);
    rewrite result_bind, result_call;
    match goal with
    | |- context [generateText ?w ?m ?p ?t ?n] =>
        destruct (generateText w m p t n) as [text|e]
    end;
    try (rewrite unexpected_result; eexists; split; [reflexivity|]; auto);
    rewrite parse_step_result;
    destruct (JSON_parse W text);
    eexists; (split; [reflexivity|]); cbn; auto.
Qed.

Lemma POST_grade_submission_asks_nobody :
  traceAll (fun e => isIdentityCall e = false)
    (POST_grade_submission W request).
Proof.
  unfold POST_grade_submission, destructure, unexpected.
  trace_all; reflexivity.
Qed.

Variable body : json.
Hypothesis Hbody : request_json request = Ok body.
Hypothesis Hdescription :
  truthyOpt (prop body "assignmentDescription") = true.
Hypothesis Hcontent : truthyOpt (prop body "submissionContent") = true.

(** The run up to the model call and the step after it. *)
Lemma POST_grade_submission_run :
  POST_grade_submission W request
  = tryCatch
      (emit EvRequestJson ;;;
       text <- call (EvGenerateText "gpt-4o"
                       (gradingPrompt (prop body "assignmentDescription")
                          (prop body "submissionContent")
                          (prop body "pointsPossible")
                          (prop body "rubric"))
                       "0.2" 2000)
                 (generateText W "gpt-4o"
                    (gradingPrompt (prop body "assignmentDescription")
                       (prop body "submissionContent")
                       (prop body "pointsPossible")
                       (prop body "rubric"))
                    "0.2" 2000) ;;
       tryCatch
         (grading <- settle (JSON_parse W text) ;;
          ret (NextResponse_json grading 200))
         (fun e =>
            console LevelError "Error parsing AI response:" (Some e) ;;;
            ret (NextResponse_json
                   (JObj [("error", JStr "Failed to parse AI response");
                          ("rawResponse", JStr text)])
                   500)))
      (unexpected "Error in AI grading:").
Proof.
  unfold POST_grade_submission. rewrite Hbody, call_ok_bind.
  apply (f_equal (fun m => tryCatch m _)).
  apply bind_ext. intros _.
  destruct body; try discriminate.
  unfold destructure. rewrite bind_ret_l. cbv zeta.
  now rewrite Hdescription, Hcontent.
Qed.

Lemma POST_grade_submission_model_calls :
  modelCalls (POST_grade_submission W request)
  = [EvGenerateText "gpt-4o"
       (gradingPrompt (prop body "assignmentDescription")
          (prop body "submissionContent")
          (prop body "pointsPossible")
          (prop body "rubric"))
       "0.2" 2000].
Proof.
  rewrite POST_grade_submission_run.
  unfold modelCalls, trace, tryCatch, bind, emit, call, settle.
  destruct (generateText W _ _ _ _) as [text|e]; [|reflexivity].
  destruct (JSON_parse W text); reflexivity.
Qed.

End GradingRoute.

(** C6: when the text the language model returns is not valid JSON, the
    grading handler answers with status 500 and a body that holds an error
    field and a rawResponse field equal to that text, and it has called
    the model once. *)
Theorem unparsable_model_text_is_reported (W : World) (request : Request)
  (body : json) (text : string) (e : exn) :
  request_json request = Ok body ->
  truthyOpt (prop body "assignmentDescription") = true ->
  truthyOpt (prop body "submissionContent") = true ->
  generateText W "gpt-4o"
    (gradingPrompt (prop body "assignmentDescription")
       (prop body "submissionContent") (prop body "pointsPossible")
       (prop body "rubric"))
    "0.2" 2000
  = Ok text ->
  JSON_parse W text = Throw e ->
  result (POST_grade_submission W request)
  = Ok (mkResponse 500
          (JObj [("error", JStr "Failed to parse AI response");
                 ("rawResponse", JStr text)]))
  /\ modelCalls (POST_grade_submission W request)
     = [EvGenerateText "gpt-4o"
          (gradingPrompt (prop body "assignmentDescription")
             (prop body "submissionContent") (prop body "pointsPossible")
             (prop body "rubric"))
          "0.2" 2000].
Proof.
  intros Hbody Hd Hc Hgen Hparse. split.
  - rewrite (POST_grade_submission_run W request body Hbody Hd Hc).
    rewrite result_tryCatch, result_bind.
    cbn [emit result fst].
    rewrite result_bind, result_call, Hgen, parse_step_result, Hparse.
    reflexivity.
  - exact (POST_grade_submission_model_calls W request body Hbody Hd Hc).
Qed.

Lemma unparsable_model_text_is_reported_witness :
  result
    (POST_grade_submission
       Sample.ramblingWorld
       Sample.gradingRequest)
  = Ok (mkResponse 500
          (JObj [("error", JStr "Failed to parse AI response");
                 ("rawResponse", JStr "Grade: 90")])).
Proof.
  apply (unparsable_model_text_is_reported
           Sample.ramblingWorld
           Sample.gradingRequest
           (JObj [("assignmentDescription", JStr "Write an essay");
                  ("submissionContent", JStr "My essay")])
           "Grade: 90" (JsError "Unexpected token"));
    reflexivity.
Defined.

(** C9, as stated, fails: a body that contains both fields, one of them
    as the empty string, is answered with status 400 and the model is not
    called. *)
Lemma blank_description_is_refused :
  request_json Sample.blankGradingRequest
  = Ok (JObj [("assignmentDescription", JStr "");
              ("submissionContent", JStr "My essay")])
  /\ result (POST_grade_submission Sample.anonymousWorld
               Sample.blankGradingRequest)
     = Ok (mkResponse 400
             (JObj [("error",
                      JStr "Assignment description and submission content are required")]))
  /\ modelCalls (POST_grade_submission Sample.anonymousWorld
                   Sample.blankGradingRequest)
     = [].
Proof. repeat split; reflexivity. Qed.

(** C9, amended: the grading handler never asks for a session or a user,
    whatever the request; it answers every request, and never with status
    401; and when the body carries a truthy (for a string: non-empty)
    assignment description and submission content, it builds the prompt
    from them and calls the model with it, whether or not a session
    exists. *)
Theorem grade_submission_needs_no_session (W : World) (request : Request) :
  filter isIdentityCall (trace (POST_grade_submission W request)) = []
  /\ (exists response,
         result (POST_grade_submission W request) = Ok response
         /\ response_status response <> 401)
  /\ (forall body,
         request_json request = Ok body ->
         truthyOpt (prop body "assignmentDescription") = true ->
         truthyOpt (prop body "submissionContent") = true ->
         modelCalls (POST_grade_submission W request)
         = [EvGenerateText "gpt-4o"
              (gradingPrompt (prop body "assignmentDescription")
                 (prop body "submissionContent")
                 (prop body "pointsPossible") (prop body "rubric"))
              "0.2" 2000]).
Proof.
  split; [|split].
  - apply traceAll_filter_nil, POST_grade_submission_asks_nobody.
  - destruct (POST_grade_submission_total W request)
      as (response & Hr & Hstatus).
    exists response. split; [exact Hr|].
    destruct Hstatus as [H | [H | H]]; rewrite H; discriminate.
  - intros body. apply POST_grade_submission_model_calls.
Qed.

Lemma grade_submission_needs_no_session_witness :
  modelCalls
    (POST_grade_submission
       Sample.anonymousWorld
       Sample.gradingRequest)
  = [EvGenerateText "gpt-4o"
       (gradingPrompt (Some (JStr "Write an essay")) (Some (JStr "My essay"))
          None None)
       "0.2" 2000].
Proof.
  apply (proj2 (proj2
           (grade_submission_needs_no_session
              Sample.anonymousWorld
              Sample.gradingRequest))
           (JObj [("assignmentDescription", JStr "Write an essay");
                  ("submissionContent", JStr "My essay")]));
    reflexivity.
Defined.

(** * Further properties of the code *)

(** ** Strings and URLs *)

Lemma splitOn_nonempty (sep : ascii) (s : string) : splitOn sep s <> [].
Proof.
  induction s as [|c s IH]; simpl; [discriminate|].
  destruct (Ascii.eqb c sep); [discriminate|].
  destruct (splitOn sep s); discriminate.
Qed.

Lemma join_cons (sep p : string) (q : string) (rest : list string) :
  join sep (p :: q :: rest) = p ++ sep ++ join sep (q :: rest).
Proof. reflexivity. Qed.

Lemma join_splitOn (s : string) : join "," (splitOn "," s) = s.
Proof.
  induction s as [|c s IH]; [reflexivity|].
  cbn [splitOn].
  destruct (Ascii.eqb c ",") eqn:E.
  - apply Ascii.eqb_eq in E. subst c.
    pose proof (splitOn_nonempty "," s) as Hne.
    destruct (splitOn "," s) as [|p rest]; [congruence|].
    rewrite join_cons, IH. reflexivity.
  - pose proof (splitOn_nonempty "," s) as Hne.
    destruct (splitOn "," s) as [|p rest]; [congruence|].
    destruct rest as [|q rest].
    + simpl in *. now rewrite IH.
    + rewrite join_cons in *. rewrite <- IH. reflexivity.
Qed.

(** X1: a comma-separated list parameter of the incoming request reaches
    the query of the Canvas request as it came: the handler splits it, the
    client joins it again.  Without the parameter the fallback list is
    sent, joined with commas. *)
Theorem list_parameter_is_forwarded (request : Request) (k : string)
  (fallback : list string) (params : list (string * string)) :
  fallback <> [] ->
  setList k (listParam request k fallback) params
  = assocSet k
      match assocGet k (searchParams request) with
      | Some s => s
      | None => join "," fallback
      end
      params.
Proof.
  intro Hf. unfold listParam, setList.
  destruct (assocGet k (searchParams request)) as [s|].
  - pose proof (splitOn_nonempty "," s) as Hne.
    destruct (splitOn "," s) as [|p rest] eqn:E; [congruence|].
    rewrite <- E, join_splitOn. reflexivity.
  - destruct fallback; [congruence|reflexivity].
Qed.

Lemma list_parameter_is_forwarded_witness :
  setList "include"
    (listParam (mkRequest [("include", "user,rubric_assessment")] (Ok JNull))
       "include" ["user"; "submission_comments"])
    []
  = [("include", "user,rubric_assessment")].
Proof.
  apply (list_parameter_is_forwarded
           (mkRequest [("include", "user,rubric_assessment")] (Ok JNull))
           "include" ["user"; "submission_comments"] []).
  discriminate.
Defined.

(** X2: [normalizeCanvasUrl] only ever adds to its input: "https://" in
    front unless the input starts with a scheme, and "/" behind unless the
    result of that ends in one; a URL on "http://" is not moved to
    "https://".  The result always starts with one of the two schemes. *)
Theorem normalizeCanvasUrl_only_adds (url : string) :
  normalizeCanvasUrl url
  = (if startsWith url "http://" || startsWith url "https://"
     then "" else "https://")
    ++ url
    ++ (if endsWith (ensureProtocol url) "/" then "" else "/")
  /\ startsWith (normalizeCanvasUrl url) "http://"
     || startsWith (normalizeCanvasUrl url) "https://" = true.
Proof.
  split.
  - unfold normalizeCanvasUrl, ensureProtocol.
    destruct (startsWith url "http://"), (startsWith url "https://");
      cbn [negb andb orb];
      match goal with
      | |- context [endsWith ?x "/"] => destruct (endsWith x "/")
      end; cbn [negb append]; rewrite ?append_empty_r, ?append_assoc;
      reflexivity.
  - destruct (normalizeCanvasUrl_has_scheme url) as [H | H]; rewrite H;
      [reflexivity | apply orb_true_r].
Qed.

(** ** The request primitive, outcome by outcome *)

(** X29: with [throwOnError] on, a rejected fetch always reaches the
    caller as an [Error]: one whose message is not "Failed to fetch" is
    thrown on unchanged, and a thrown value that is not an [Error] is
    wrapped as "Failed to connect to Canvas API: <value>". *)
Theorem request_passes_fetch_errors_on (W : World) (client : CanvasApiClient)
  (endpoint : string) (options : RequestInit) (e : exn) :
  fetch W (requestUrl client endpoint)
    (mkInit (init_method options) (init_body options)
       (requestHeaders client options))
  = Throw e ->
  e <> JsError "Failed to fetch" ->
  result (request W client endpoint options true)
  = Throw (JsError
             match e with
             | JsError message => message
             | Thrown shown => "Failed to connect to Canvas API: " ++ shown
             end).
Proof.
  intros Hf Hne. unfold request.
  rewrite result_bind, result_console, result_bind, result_tryCatch,
    result_bind, result_call, Hf.
  unfold requestCatch. rewrite result_bind, result_console.
  destruct e as [message|shown]; [|reflexivity].
  destruct (String.eqb message "Failed to fetch") eqn:E; [|reflexivity].
  apply String.eqb_eq in E. congruence.
Qed.

Lemma request_passes_fetch_errors_on_witness :
  result
    (request
       (MoreSamples.canvasWorld (fun _ _ => Throw (Thrown "ECONNRESET")))
       Sample.client "users/self" noOptions true)
  = Throw (JsError "Failed to connect to Canvas API: ECONNRESET").
Proof.
  apply (request_passes_fetch_errors_on
           (MoreSamples.canvasWorld (fun _ _ => Throw (Thrown "ECONNRESET")))
           Sample.client "users/self" noOptions (Thrown "ECONNRESET"));
    solve [discriminate | reflexivity].
Defined.

Lemma requestCatch_result (url : string) (throwOnError : bool) (e : exn) :
  result (requestCatch url throwOnError e)
  = if throwOnError then Throw (surfaced url e) else Ok (inl JNull).
Proof.
  unfold requestCatch, surfaced, networkErrorText.
  destruct e as [message|shown]; [destruct (String.eqb message _)|];
    destruct throwOnError; reflexivity.
Qed.

Lemma request_result (W : World) (client : CanvasApiClient)
  (endpoint : string) (options : RequestInit) (throwOnError : bool) :
  result (request W client endpoint options throwOnError)
  = match
      fetch W (requestUrl client endpoint)
        (mkInit (init_method options) (init_body options)
           (requestHeaders client options))
    with
    | Ok response =>
        if ok response then json_body response
        else if throwOnError then
          Throw (surfaced (requestUrl client endpoint)
                   (JsError
                      (extractErrorMessage (json_body response)
                         (statusLine response))))
        else Ok JNull
    | Throw e =>
        if throwOnError then Throw (surfaced (requestUrl client endpoint) e)
        else Ok JNull
    end.
Proof.
  unfold request, statusLine.
  rewrite result_bind, result_console, result_bind, result_tryCatch,
    result_bind, result_call.
  destruct (fetch W _ _) as [response|e].
  - destruct (ok response); cbn [negb]; [reflexivity|].
    destruct throwOnError.
    + cbn [result throw fst]. rewrite requestCatch_result. reflexivity.
    + reflexivity.
  - rewrite requestCatch_result. destruct throwOnError; reflexivity.
Qed.

Lemma statusLine_not_network (url : string) (response : FetchResponse) :
  surfaced url (JsError (statusLine response)) = JsError (statusLine response).
Proof. reflexivity. Qed.

(** X3: when Canvas answers with an error status and a body that cannot be
    read as JSON, [request] throws "Canvas API error: <status>
    <statusText>", or returns [null] with [throwOnError] off. *)
Theorem request_falls_back_to_status_line (W : World)
  (client : CanvasApiClient) (endpoint : string) (options : RequestInit)
  (response : FetchResponse) (e : exn) :
  fetch W (requestUrl client endpoint)
    (mkInit (init_method options) (init_body options)
       (requestHeaders client options))
  = Ok response ->
  ok response = false ->
  json_body response = Throw e ->
  result (request W client endpoint options true)
  = Throw (JsError
             ("Canvas API error: " ++ showNat (status response) ++ " "
              ++ statusText response))
  /\ result (request W client endpoint options false) = Ok JNull.
Proof.
  intros Hf Hok Hbody. rewrite !request_result, Hf, Hok, Hbody.
  split; reflexivity.
Qed.

Lemma request_falls_back_to_status_line_witness :
  result (request (MoreSamples.canvasWorld MoreSamples.refusingPlainly)
            Sample.client "users/self" noOptions true)
  = Throw (JsError "Canvas API error: 502 Bad Gateway")
  /\ result (request (MoreSamples.canvasWorld MoreSamples.refusingPlainly)
               Sample.client "users/self" noOptions false)
     = Ok JNull.
Proof.
  apply (request_falls_back_to_status_line
           (MoreSamples.canvasWorld MoreSamples.refusingPlainly)
           Sample.client "users/self" noOptions
           (mkFetchResponse false 502 "Bad Gateway"
              (Throw (JsError "Unexpected token <")))
           (JsError "Unexpected token <"));
    reflexivity.
Defined.

(** X4: when Canvas answers with an error status and a JSON body whose
    [errors[0].message] is a non-empty string, [request] throws that
    message instead of the status line.  The [catch] block sees this throw
    as well, so a Canvas message that reads "Failed to fetch" comes out
    rewritten as a network error. *)
Theorem request_throws_canvas_message (W : World) (client : CanvasApiClient)
  (endpoint : string) (options : RequestInit) (response : FetchResponse)
  (body : json) (message : string) :
  fetch W (requestUrl client endpoint)
    (mkInit (init_method options) (init_body options)
       (requestHeaders client options))
  = Ok response ->
  ok response = false ->
  json_body response = Ok body ->
  optProp (optIndex0 (prop body "errors")) "message" = Some (JStr message) ->
  message <> "" ->
  result (request W client endpoint options true)
  = Throw (JsError
             (if String.eqb message "Failed to fetch"
              then networkErrorText (requestUrl client endpoint)
              else message)).
Proof.
  intros Hf Hok Hbody Hm Hne. rewrite request_result, Hf, Hok, Hbody.
  assert (He : extractErrorMessage (Ok body) (statusLine response) = message).
  { unfold extractErrorMessage.
    destruct body; try (rewrite Hm; cbn [truthy toString];
                        now rewrite (eqb_empty_false _ Hne)).
    discriminate. }
  rewrite He. unfold surfaced.
  destruct (String.eqb message "Failed to fetch"); reflexivity.
Qed.

Lemma request_throws_canvas_message_witness :
  result (request
            (MoreSamples.canvasWorld (MoreSamples.refusing "Invalid access token."))
            Sample.client "users/self" noOptions true)
  = Throw (JsError "Invalid access token.").
Proof.
  apply (request_throws_canvas_message
           (MoreSamples.canvasWorld
              (MoreSamples.refusing "Invalid access token."))
           Sample.client "users/self" noOptions
           (mkFetchResponse false 401 "Unauthorized"
              (Ok (JObj [("errors",
                           JArr [JObj [("message",
                                         JStr "Invalid access token.")]])])))
           (JObj [("errors",
                    JArr [JObj [("message", JStr "Invalid access token.")]])])
           "Invalid access token.");
    solve [reflexivity | discriminate].
Defined.

(** X5: when Canvas answers with a success status, [request] settles the
    way reading the body as JSON settles, whatever [throwOnError] says: a
    body that cannot be read is thrown to the caller even with
    [throwOnError] off. *)
Theorem request_success_settles_as_body (W : World) (client : CanvasApiClient)
  (endpoint : string) (options : RequestInit) (response : FetchResponse)
  (throwOnError : bool) :
  fetch W (requestUrl client endpoint)
    (mkInit (init_method options) (init_body options)
       (requestHeaders client options))
  = Ok response ->
  ok response = true ->
  result (request W client endpoint options throwOnError)
  = json_body response.
Proof.
  intros Hf Hok. now rewrite request_result, Hf, Hok.
Qed.

Lemma request_success_settles_as_body_witness :
  result (request (MoreSamples.canvasWorld MoreSamples.garbling)
            Sample.client "users/42" noOptions false)
  = Throw (JsError "Unexpected end").
Proof.
  apply (request_success_settles_as_body
           (MoreSamples.canvasWorld MoreSamples.garbling)
           Sample.client "users/42" noOptions
           (mkFetchResponse true 200 "OK" (Throw (JsError "Unexpected end")))
           false);
    reflexivity.
Defined.



Lemma request_canvasCalls (W : World) (client : CanvasApiClient)
  (endpoint : string) (options : RequestInit) (throwOnError : bool) :
  canvasCalls (request W client endpoint options throwOnError)
  = [EvFetch (requestUrl client endpoint)
       (mkInit (init_method options) (init_body options)
          (requestHeaders client options))].
Proof.
  unfold canvasCalls, request, requestCatch, trace, tryCatch, bind, call,
    console, emit, ret, throw, settle.
  destruct (fetch W _ _) as [response|[message|shown]].
  - destruct (ok response); cbn [negb];
      [destruct (json_body response); reflexivity|].
    destruct throwOnError; [|reflexivity].
    destruct (String.eqb _ "Failed to fetch"); reflexivity.
  - destruct (String.eqb message "Failed to fetch"), throwOnError;
      reflexivity.
  - destruct throwOnError; reflexivity.
Qed.

(** X7: [getUserById] with [throwOnError] off never throws: it returns
    the user that Canvas sends with a success status, and [null] in every
    other case, an unreadable body included. *)
Theorem getUserById_quiet (W : World) (client : CanvasApiClient)
  (userId : string) :
  result (getUserById W client userId false)
  = Ok match
         fetch W (requestUrl client ("users/" ++ userId))
           (mkInit None None (requestHeaders client noOptions))
       with
       | Ok response =>
           if ok response then
             match json_body response with
             | Ok user => user
             | Throw _ => JNull
             end
           else JNull
       | Throw _ => JNull
       end.
Proof.
  unfold getUserById.
  rewrite result_tryCatch, result_bind, result_console, request_result.
  cbn [init_method init_body noOptions].
  destruct (fetch W _ _) as [response|e]; [|reflexivity].
  destruct (ok response); [|reflexivity].
  destruct (json_body response); reflexivity.
Qed.

(** X8: each typed operation of the client sends exactly one request,
    whatever Canvas answers and whether or not the operation throws: there
    is no retry and no second call. *)
Theorem operations_fetch_once (W : World) (client : CanvasApiClient)
  (courseId assignmentId userId bucket enrollment_state enrollment_type
     : string)
  (include state ids : list string) (data : json) (throwOnError : bool) :
  Forall (fun calls : list event => length calls = 1)
    [canvasCalls (getCurrentUser W client);
     canvasCalls (getCourses W client include enrollment_state state
                    enrollment_type);
     canvasCalls (getCourse W client courseId include);
     canvasCalls (getCourseAssignments W client courseId include bucket ids);
     canvasCalls (getAssignment W client courseId assignmentId);
     canvasCalls (getAssignmentSubmissions W client courseId assignmentId
                    include);
     canvasCalls (getSubmission W client courseId assignmentId userId
                    include);
     canvasCalls (getUserById W client userId throwOnError);
     canvasCalls (updateSubmissionGrade W client courseId assignmentId userId
                    data)].
Proof.
  assert (Hwrapped : forall (m : M json) before (h : exn -> M json),
            length (canvasCalls m) = 1 ->
            (forall e, canvasCalls (h e) = []) ->
            length (canvasCalls
                      (tryCatch (console LevelLog before None ;;; m) h)) = 1).
  { intros m before h Hm Hh. unfold canvasCalls in *.
    rewrite trace_tryCatch, trace_bind, result_console, !filter_app.
    cbn [console emit trace snd filter isFetch app].
    destruct (result (console LevelLog before None;;; m)) as [a|e];
      [now rewrite app_nil_r|].
    rewrite Hh, app_nil_r. exact Hm. }
  repeat constructor;
    try (unfold getCurrentUser, getCourses, getCourse, getCourseAssignments,
           getAssignmentSubmissions, getSubmission, updateSubmissionGrade;
         now rewrite request_canvasCalls).
  - unfold getAssignment. apply Hwrapped.
    + now rewrite request_canvasCalls.
    + reflexivity.
  - unfold getUserById. apply Hwrapped.
    + now rewrite request_canvasCalls.
    + intro e. destruct throwOnError; reflexivity.
Qed.

(** ** What a handler can answer *)

Section ResultAll.

Context {A B : Type}.

Lemma resultAll_ret (Q : A -> Prop) (a : A) : Q a -> resultAll Q (ret a).
Proof. intro H. exact H. Qed.

Lemma resultAll_throw (Q : A -> Prop) (e : exn) : resultAll Q (throw e).
Proof. exact I. Qed.

Lemma resultAll_bind (Q : B -> Prop) (m : M A) (k : A -> M B) :
  (forall a, result m = Ok a -> resultAll Q (k a)) ->
  resultAll Q (bind m k).
Proof.
  unfold resultAll. intro H. rewrite result_bind.
  destruct (result m) as [a|e]; [now apply H | exact I].
Qed.

Lemma resultAll_tryCatch (Q : A -> Prop) (m : M A) (h : exn -> M A) :
  resultAll Q m -> (forall e, resultAll Q (h e)) ->
  resultAll Q (tryCatch m h).
Proof.
  unfold resultAll. intros Hm Hh. rewrite result_tryCatch.
  destruct (result m) as [a|e]; [exact Hm | apply Hh].
Qed.

End ResultAll.

(** A handler whose body can only return one of [statuses], wrapped in the
    catch-all, answers with one of them or with 500. *)
Lemma catch_all_answers (statuses : list nat) (body : M Response)
  (logText : string) :
  resultAll (fun r => In (response_status r) statuses) body ->
  In 500 statuses ->
  answersWith statuses (tryCatch body (unexpected logText)).
Proof.
  unfold resultAll, answersWith. intros Hb H500.
  rewrite result_tryCatch.
  destruct (result body) as [r|e].
  - exists r. auto.
  - rewrite unexpected_result. eexists. split; [reflexivity|exact H500].
Qed.

Ltac result_all :=
  repeat match goal with
    | |- resultAll _ (ret _) => apply resultAll_ret; simpl; tauto
    | |- resultAll _ (throw _) => apply resultAll_throw
    | |- resultAll _ (bind _ _) => apply resultAll_bind; intros
    | |- resultAll _ (tryCatch _ _) => apply resultAll_tryCatch; [|intros]
    | |- resultAll _ (if ?b then _ else _) => destruct b
    | |- resultAll _ (match ?x with _ => _ end) => destruct x
    end.

Ltac handler_statuses :=
  apply catch_all_answers; [|simpl; tauto];
  unfold withCredentials, submissionFallback, credentialsMissing;
  result_all.

(** X9: the two handlers of the submission route always answer, never
    throw, and only with these statuses: GET with 200, 400, 401, 404 or
    500, PUT with 200, 400, 401 or 500. *)
Theorem submission_route_statuses (W : World) (request : Request)
  (courseId assignmentId userId : string) :
  answersWith [200; 400; 401; 404; 500]
    (GET_submission W request courseId assignmentId userId)
  /\ answersWith [200; 400; 401; 500]
       (PUT_submission W request courseId assignmentId userId).
Proof.
  split; [unfold GET_submission | unfold PUT_submission]; handler_statuses.
Qed.

(** X10: the other Canvas route handlers always answer, never throw, and
    only with these statuses: the assignment handler with 200, 400, 401,
    404 or 500, the three list handlers with 200, 400, 401 or 500. *)
Theorem list_routes_statuses (W : World) (request : Request)
  (courseId assignmentId : string) :
  answersWith [200; 400; 401; 404; 500]
    (GET_assignment W request courseId assignmentId)
  /\ answersWith [200; 400; 401; 500]
       (GET_submissions W request courseId assignmentId)
  /\ answersWith [200; 400; 401; 500] (GET_assignments W request courseId)
  /\ answersWith [200; 400; 401; 500] (GET_courses W request).
Proof.
  split; [|split; [|split]];
    [ unfold GET_assignment | unfold GET_submissions
    | unfold GET_assignments | unfold GET_courses ];
    handler_statuses.
Qed.

(** ** Before the credentials are known *)

Lemma withCredentials_signed_out (W : World)
  (k : string -> string -> M Response) :
  getSession W = Ok None ->
  withCredentials W k
  = (Ok (NextResponse_json (errorBody "Unauthorized") 401), [EvGetSession]).
Proof. intro H. unfold withCredentials, call. now rewrite H. Qed.

(** X11: without a session every Canvas route handler answers 401
    "Unauthorized" right after the session lookup: the stored credentials
    are not looked up and Canvas is not called. *)
Theorem signed_out_is_unauthorized (W : World) (request : Request)
  (courseId assignmentId userId : string) :
  courseId <> "" -> assignmentId <> "" -> userId <> "" ->
  getSession W = Ok None ->
  Forall
    (fun run =>
       result run
       = Ok (mkResponse 401 (JObj [("error", JStr "Unauthorized")]))
       /\ filter isCredentialLookup (trace run) = []
       /\ canvasCalls run = [])
    (canvasRouteRuns W request courseId assignmentId userId).
Proof.
  intros Hc Ha Hu Hs.
  unfold canvasRouteRuns, GET_submission, PUT_submission, GET_submissions,
    GET_assignment, GET_assignments, GET_courses.
  rewrite (eqb_empty_false _ Hc), (eqb_empty_false _ Ha),
    (eqb_empty_false _ Hu).
  cbn [orb]. cbv zeta.
  rewrite !(withCredentials_signed_out W _ Hs).
  repeat constructor.
Qed.

Lemma signed_out_is_unauthorized_witness :
  Forall
    (fun run =>
       result run
       = Ok (mkResponse 401 (JObj [("error", JStr "Unauthorized")]))
       /\ filter isCredentialLookup (trace run) = []
       /\ canvasCalls run = [])
    (canvasRouteRuns MoreSamples.signedOutWorld Sample.emptyRequest
       "7" "9" "42").
Proof.
  apply (signed_out_is_unauthorized MoreSamples.signedOutWorld
           Sample.emptyRequest "7" "9" "42");
    solve [discriminate | reflexivity].
Defined.

(** X12: a request to the submission route with an empty course,
    assignment or user id is answered with 400 before anything else
    happens: neither handler makes a single call or writes a line. *)
Theorem empty_route_parameter_is_rejected (W : World) (request : Request)
  (courseId assignmentId userId : string) :
  courseId = "" \/ assignmentId = "" \/ userId = "" ->
  GET_submission W request courseId assignmentId userId
  = (Ok (mkResponse 400
           (JObj [("error",
                    JStr "Course ID, Assignment ID, and User ID are required")])),
     [])
  /\ PUT_submission W request courseId assignmentId userId
     = (Ok (mkResponse 400
              (JObj [("error",
                       JStr "Course ID, Assignment ID, and User ID are required")])),
        []).
Proof.
  intro H. unfold GET_submission, PUT_submission.
  assert (Hb : String.eqb courseId "" || String.eqb assignmentId ""
               || String.eqb userId "" = true).
  { destruct H as [H | [H | H]]; subst; rewrite ?orb_true_r; reflexivity. }
  rewrite Hb. split; reflexivity.
Qed.

Lemma empty_route_parameter_is_rejected_witness :
  GET_submission Sample.settledWorld Sample.emptyRequest "7" "" "42"
  = (Ok (mkResponse 400
           (JObj [("error",
                    JStr "Course ID, Assignment ID, and User ID are required")])),
     [])
  /\ PUT_submission Sample.settledWorld Sample.emptyRequest "7" "" "42"
     = (Ok (mkResponse 400
              (JObj [("error",
                       JStr "Course ID, Assignment ID, and User ID are required")])),
        []).
Proof.
  apply (empty_route_parameter_is_rejected Sample.settledWorld
           Sample.emptyRequest "7" "" "42").
  right. left. reflexivity.
Defined.

(** ** The two sources of credentials *)

(** X13: when the settings row holds a usable pair, credential resolution
    consists of the settings query alone: the user metadata is not
    fetched. *)
Theorem settings_hit_skips_metadata (W : World) (session : Session)
  (canvasUrl canvasToken : string) :
  settingsPair W session = Some (canvasUrl, canvasToken) ->
  resolveCredentials W session
  = (Ok (Some canvasUrl, Some canvasToken),
     [EvSelectUserSettings (session_user_id session)]).
Proof.
  unfold settingsPair, settingsRow, resolveCredentials, call.
  destruct (selectUserSettings W (session_user_id session)) as [q|e];
    [|discriminate].
  cbn [bind].
  destruct (error q); [discriminate|].
  destruct (data q) as [row|]; [|discriminate].
  intro H. destruct (usable_Some _ _ _ _ H) as (Hu & Ht & H1 & H2).
  rewrite Hu in H1 |- *. rewrite Ht in H2 |- *.
  cbn [tryCatch bind ret app]. rewrite H1, H2. reflexivity.
Qed.

Lemma settings_hit_skips_metadata_witness :
  resolveCredentials Sample.settledWorld Sample.teacher
  = (Ok (Some "canvas.example.edu", Some "secret"),
     [EvSelectUserSettings "teacher-1"]).
Proof.
  apply (settings_hit_skips_metadata Sample.settledWorld Sample.teacher).
  reflexivity.
Defined.

(** X14: a settings query that throws, reports an error or finds no row is
    not fatal: the credentials are then those of the user metadata, and
    every request that a Canvas route handler sends is made with them. *)
Theorem settings_failure_falls_back_to_metadata (W : World)
  (request : Request) (courseId assignmentId userId : string)
  (session : Session) (canvasUrl canvasToken : string) :
  getSession W = Ok (Some session) ->
  settingsRow W session = None ->
  metadataPair W = Some (canvasUrl, canvasToken) ->
  credentialsOf W session = Some (canvasUrl, canvasToken)
  /\ Forall
       (fun run => Forall (usesCredentials canvasUrl canvasToken)
                     (canvasCalls run))
       (canvasRouteRuns W request courseId assignmentId userId).
Proof.
  intros Hs Hrow Hmeta.
  assert (Hc : credentialsOf W session = Some (canvasUrl, canvasToken)).
  { rewrite credentialsOf_first_match. unfold settingsPair.
    now rewrite Hrow. }
  split; [exact Hc|].
  now apply (routes_use_resolved_credentials W request _ _ _ session Hs).
Qed.

Lemma settings_failure_falls_back_to_metadata_witness :
  credentialsOf MoreSamples.brokenTableWorld Sample.teacher
  = Some ("https://backup.example.edu/", "backup-token")
  /\ Forall
       (fun run =>
          Forall (usesCredentials "https://backup.example.edu/" "backup-token")
            (canvasCalls run))
       (canvasRouteRuns MoreSamples.brokenTableWorld Sample.emptyRequest
          "7" "9" "42").
Proof.
  apply (settings_failure_falls_back_to_metadata MoreSamples.brokenTableWorld
           Sample.emptyRequest "7" "9" "42" Sample.teacher);
    reflexivity.
Defined.

(** ** The calls of a handler that has credentials *)

Section CanvasCalls.

Context {A B : Type}.

Lemma canvasCalls_bind (m : M A) (k : A -> M B) :
  canvasCalls (bind m k)
  = (canvasCalls m ++ match result m with
                      | Ok a => canvasCalls (k a)
                      | Throw _ => []
                      end)%list.
Proof.
  unfold canvasCalls. rewrite trace_bind, filter_app.
  destruct (result m); reflexivity.
Qed.

Lemma canvasCalls_tryCatch (m : M A) (h : exn -> M A) :
  canvasCalls (tryCatch m h)
  = (canvasCalls m ++ match result m with
                      | Ok _ => []
                      | Throw e => canvasCalls (h e)
                      end)%list.
Proof.
  unfold canvasCalls. rewrite trace_tryCatch, filter_app.
  destruct (result m); reflexivity.
Qed.

End CanvasCalls.

Lemma canvasCalls_catch_all (body : M Response) (logText : string) :
  canvasCalls (tryCatch body (unexpected logText)) = canvasCalls body.
Proof.
  rewrite canvasCalls_tryCatch.
  destruct (result body); now rewrite app_nil_r.
Qed.

Lemma withCredentials_found_calls (W : World)
  (k : string -> string -> M Response) (session : Session) (u t : string) :
  getSession W = Ok (Some session) ->
  credentialsOf W session = Some (u, t) ->
  canvasCalls (withCredentials W k) = canvasCalls (k u t).
Proof.
  intros Hs Hc. unfold withCredentials.
  rewrite canvasCalls_bind, result_call, Hs, canvasCalls_bind.
  assert (Hq : canvasCalls (resolveCredentials W session) = []).
  { apply traceAll_filter_nil, resolveCredentials_quiet.
    apply noFetch_onlyAboutFetch. }
  rewrite Hq. unfold credentialsOf in Hc.
  destruct (result (resolveCredentials W session)) as [c|e]; [|discriminate].
  rewrite Hc. reflexivity.
Qed.

Lemma requestUrl_created (canvasUrl tok endpoint : string) :
  requestUrl (createCanvasApiClient canvasUrl tok) endpoint
  = normalizeCanvasUrl canvasUrl ++ "api/v1/" ++ stripLeadingSlash endpoint.
Proof. reflexivity. Qed.

(** Enters a handler whose route parameters, session and credentials are
    among the hypotheses. *)
Ltac enter_handler :=
  rewrite ?result_tryCatch, ?canvasCalls_catch_all;
  repeat match goal with
         | H : ?x <> "" |- context [String.eqb ?x ""] =>
             rewrite (eqb_empty_false x H)
         end;
  cbn [orb]; cbv zeta;
  rewrite ?result_bind, ?result_console, ?canvasCalls_bind;
  match goal with
  | Hs : getSession ?W = Ok (Some ?s),
    Hc : credentialsOf ?W ?s = Some (?u, ?t) |- _ =>
      rewrite ?(withCredentials_found W _ s u t Hs Hc),
        ?(withCredentials_found_calls W _ s u t Hs Hc)
  end;
  cbv zeta.

(** X15: the PUT handler forwards the grade update as it came.  With
    credentials and a readable body it sends exactly one request: PUT to
    the submission of that course, assignment and user, carrying the
    serialised request body and the bearer token.  What Canvas returns is
    answered as [{ submission }] with 200; any failure of that request is
    answered with 500 and the message of the error. *)
Theorem PUT_submission_forwards_payload (W : World) (incoming : Request)
  (courseId assignmentId userId : string) (session : Session)
  (canvasUrl canvasToken : string) (body : json) :
  courseId <> "" -> assignmentId <> "" -> userId <> "" ->
  getSession W = Ok (Some session) ->
  credentialsOf W session = Some (canvasUrl, canvasToken) ->
  request_json incoming = Ok body ->
  canvasCalls (PUT_submission W incoming courseId assignmentId userId)
  = [EvFetch
       (normalizeCanvasUrl canvasUrl ++ "api/v1/courses/" ++ courseId
        ++ "/assignments/" ++ assignmentId ++ "/submissions/" ++ userId)
       (mkInit (Some "PUT") (Some (JSON_stringify W body))
          [("Authorization", "Bearer " ++ canvasToken);
           ("Accept", "application/json");
           ("Content-Type", "application/json")])]
  /\ result (PUT_submission W incoming courseId assignmentId userId)
     = match
         result
           (updateSubmissionGrade W
              (createCanvasApiClient canvasUrl canvasToken)
              courseId assignmentId userId body)
       with
       | Ok updated => Ok (mkResponse 200 (JObj [("submission", updated)]))
       | Throw e =>
           Ok (mkResponse 500
                 (JObj [("error",
                          JStr (messageOr e
                                  "Failed to update submission grade"))]))
       end.
Proof.
  intros Hc Ha Hu Hs Hcred Hb. unfold PUT_submission. split.
  - enter_handler.
    rewrite canvasCalls_bind, result_call, Hb, canvasCalls_tryCatch,
      canvasCalls_bind.
    unfold updateSubmissionGrade. rewrite request_canvasCalls, result_bind.
    destruct (result (request W _ _ _ _)); reflexivity.
  - enter_handler.
    rewrite result_bind, result_call, Hb, result_tryCatch, result_bind.
    destruct (result (updateSubmissionGrade W _ _ _ _ _)); reflexivity.
Qed.

Lemma PUT_submission_forwards_payload_witness :
  canvasCalls
    (PUT_submission
       (MoreSamples.canvasWorld (MoreSamples.answering (JObj [("score", JNum "95")])))
       MoreSamples.gradeRequest "7" "9" "42")
  = [EvFetch
       "https://canvas.example.edu/api/v1/courses/7/assignments/9/submissions/42"
       (mkInit (Some "PUT") (Some "{}")
          [("Authorization", "Bearer secret");
           ("Accept", "application/json");
           ("Content-Type", "application/json")])]
  /\ result
       (PUT_submission
          (MoreSamples.canvasWorld
             (MoreSamples.answering (JObj [("score", JNum "95")])))
          MoreSamples.gradeRequest "7" "9" "42")
     = Ok (mkResponse 200
             (JObj [("submission", JObj [("score", JNum "95")])])).
Proof.
  apply (PUT_submission_forwards_payload
           (MoreSamples.canvasWorld
              (MoreSamples.answering (JObj [("score", JNum "95")])))
           MoreSamples.gradeRequest "7" "9" "42" Sample.teacher
           "canvas.example.edu" "secret" MoreSamples.gradeUpdate);
    solve [discriminate | reflexivity].
Defined.

(** X16: the assignment handler never answers a Canvas failure with 500.
    A fetched assignment is answered with 200, an empty one ([null]) with
    404 "Assignment not found", and a fetch that throws with 404 and the
    message of the error. *)
Theorem GET_assignment_answers (W : World) (incoming : Request)
  (courseId assignmentId : string) (session : Session)
  (canvasUrl canvasToken : string) :
  courseId <> "" -> assignmentId <> "" ->
  getSession W = Ok (Some session) ->
  credentialsOf W session = Some (canvasUrl, canvasToken) ->
  result (GET_assignment W incoming courseId assignmentId)
  = match
      result (getAssignment W (createCanvasApiClient canvasUrl canvasToken)
                courseId assignmentId)
    with
    | Ok assignment =>
        if truthy assignment
        then Ok (mkResponse 200 (JObj [("assignment", assignment)]))
        else Ok (mkResponse 404
                   (JObj [("error", JStr "Assignment not found")]))
    | Throw e =>
        Ok (mkResponse 404
              (JObj [("error",
                       JStr (messageOr e
                               "Assignment not found or inaccessible"))]))
    end.
Proof.
  intros Hc Ha Hs Hcred. unfold GET_assignment. enter_handler.
  rewrite result_bind, result_console, result_tryCatch, result_bind.
  destruct (result (getAssignment W _ _ _)) as [v|e]; [|reflexivity].
  destruct (truthy v); reflexivity.
Qed.

Lemma GET_assignment_answers_witness :
  result (GET_assignment Sample.settledWorld Sample.emptyRequest "7" "9")
  = Ok (mkResponse 404
          (JObj [("error",
                   JStr "Network error when connecting to Canvas API at https://canvas.example.edu/api/v1/courses/7/assignments/9. Please check your Canvas URL and network connection.")])).
Proof.
  apply (GET_assignment_answers Sample.settledWorld Sample.emptyRequest
           "7" "9" Sample.teacher "canvas.example.edu" "secret");
    solve [discriminate | reflexivity].
Defined.

(** X17: the submissions handler sends exactly one request, to the
    submissions of the assignment, asking for 100 per page and passing the
    [include] parameter of the incoming request on as it came, or "user"
    when there is none. *)
Theorem GET_submissions_query (W : World) (incoming : Request)
  (courseId assignmentId : string) (session : Session)
  (canvasUrl canvasToken : string) :
  courseId <> "" -> assignmentId <> "" ->
  getSession W = Ok (Some session) ->
  credentialsOf W session = Some (canvasUrl, canvasToken) ->
  canvasCalls (GET_submissions W incoming courseId assignmentId)
  = [EvFetch
       (normalizeCanvasUrl canvasUrl ++ "api/v1/courses/" ++ courseId
        ++ "/assignments/" ++ assignmentId ++ "/submissions?"
        ++ URLSearchParams_toString W
             [("include",
                match assocGet "include" (searchParams incoming) with
                | Some s => s
                | None => "user"
                end);
              ("per_page", "100")])
       (mkInit None None
          [("Authorization", "Bearer " ++ canvasToken);
           ("Accept", "application/json");
           ("Content-Type", "application/json")])].
Proof.
  intros Hc Ha Hs Hcred. unfold GET_submissions. enter_handler.
  rewrite canvasCalls_bind. unfold getAssignmentSubmissions.
  rewrite request_canvasCalls.
  assert (Hq : setList "include" (listParam incoming "include" ["user"]) []
               = [("include",
                    match assocGet "include" (searchParams incoming) with
                    | Some s => s
                    | None => "user"
                    end)]).
  { unfold listParam, setList.
    destruct (assocGet "include" (searchParams incoming)) as [s|];
      [|reflexivity].
    pose proof (splitOn_nonempty "," s) as Hne.
    destruct (splitOn "," s) as [|p rest] eqn:E; [congruence|].
    rewrite <- E, join_splitOn. reflexivity. }
  rewrite Hq.
  destruct (result (request W _ _ _ _)); reflexivity.
Qed.

Lemma GET_submissions_query_witness :
  canvasCalls
    (GET_submissions Sample.settledWorld MoreSamples.includeRequest "7" "9")
  = [EvFetch
       "https://canvas.example.edu/api/v1/courses/7/assignments/9/submissions?include=user,rubric_assessment&per_page=100"
       (mkInit None None
          [("Authorization", "Bearer secret");
           ("Accept", "application/json");
           ("Content-Type", "application/json")])].
Proof.
  apply (GET_submissions_query Sample.settledWorld MoreSamples.includeRequest
           "7" "9" Sample.teacher "canvas.example.edu" "secret");
    solve [discriminate | reflexivity].
Defined.

(** X18: without query parameters the courses handler asks Canvas for the
    active enrollments as teacher in available courses, 100 per page, in
    one request. *)
Theorem GET_courses_defaults (W : World) (incoming : Request)
  (session : Session) (canvasUrl canvasToken : string) :
  getSession W = Ok (Some session) ->
  credentialsOf W session = Some (canvasUrl, canvasToken) ->
  assocGet "include" (searchParams incoming) = None ->
  assocGet "enrollment_state" (searchParams incoming) = None ->
  assocGet "state" (searchParams incoming) = None ->
  assocGet "enrollment_type" (searchParams incoming) = None ->
  canvasCalls (GET_courses W incoming)
  = [EvFetch
       (normalizeCanvasUrl canvasUrl ++ "api/v1/courses?"
        ++ URLSearchParams_toString W
             [("enrollment_state", "active"); ("state", "available");
              ("enrollment_type", "teacher"); ("per_page", "100")])
       (mkInit None None
          [("Authorization", "Bearer " ++ canvasToken);
           ("Accept", "application/json");
           ("Content-Type", "application/json")])].
Proof.
  intros Hs Hcred Hi He Hst Het. unfold GET_courses. enter_handler.
  unfold listParam, stringParam. rewrite Hi, He, Hst, Het.
  rewrite canvasCalls_bind. unfold getCourses. rewrite request_canvasCalls.
  destruct (result (request W _ _ _ _)); reflexivity.
Qed.

Lemma GET_courses_defaults_witness :
  canvasCalls (GET_courses Sample.settledWorld Sample.emptyRequest)
  = [EvFetch
       "https://canvas.example.edu/api/v1/courses?enrollment_state=active&state=available&enrollment_type=teacher&per_page=100"
       (mkInit None None
          [("Authorization", "Bearer secret");
           ("Accept", "application/json");
           ("Content-Type", "application/json")])].
Proof.
  apply (GET_courses_defaults Sample.settledWorld Sample.emptyRequest
           Sample.teacher "canvas.example.edu" "secret");
    reflexivity.
Defined.

(** ** The submission handler, case by case *)

(** X19: when Canvas answers the submission request with an empty value
    ([null]), the GET handler answers 404 "Submission not found" and
    leaves it at that one request: the fallback to the assignment is for
    a fetch that throws. *)
Theorem GET_submission_empty_is_404 (W : World) (incoming : Request)
  (courseId assignmentId userId : string) (session : Session)
  (canvasUrl canvasToken : string) (submission : json) :
  courseId <> "" -> assignmentId <> "" -> userId <> "" ->
  getSession W = Ok (Some session) ->
  credentialsOf W session = Some (canvasUrl, canvasToken) ->
  result
    (getSubmission W (createCanvasApiClient canvasUrl canvasToken)
       courseId assignmentId userId
       (listParam incoming "include" ["user"; "submission_comments"]))
  = Ok submission ->
  truthy submission = false ->
  result (GET_submission W incoming courseId assignmentId userId)
  = Ok (mkResponse 404 (JObj [("error", JStr "Submission not found")]))
  /\ length (canvasCalls
               (GET_submission W incoming courseId assignmentId userId))
     = 1.
Proof.
  intros Hc Ha Hu Hs Hcred Hsub Hfalsy. split.
  - rewrite (GET_submission_found W incoming _ _ _ Hc Ha Hu session Hs _ _
               Hcred).
    now rewrite Hsub, Hfalsy.
  - unfold GET_submission. enter_handler.
    rewrite canvasCalls_tryCatch, canvasCalls_bind, result_bind, Hsub, Hfalsy.
    unfold getSubmission. rewrite request_canvasCalls. reflexivity.
Qed.

Lemma GET_submission_empty_is_404_witness :
  result
    (GET_submission (MoreSamples.canvasWorld (MoreSamples.answering JNull))
       Sample.emptyRequest "7" "9" "42")
  = Ok (mkResponse 404 (JObj [("error", JStr "Submission not found")]))
  /\ length
       (canvasCalls
          (GET_submission
             (MoreSamples.canvasWorld (MoreSamples.answering JNull))
             Sample.emptyRequest "7" "9" "42"))
     = 1.
Proof.
  apply (GET_submission_empty_is_404
           (MoreSamples.canvasWorld (MoreSamples.answering JNull))
           Sample.emptyRequest "7" "9" "42" Sample.teacher
           "canvas.example.edu" "secret" JNull);
    solve [discriminate | reflexivity].
Defined.

(** X20: a fetched submission that carries a user is answered unchanged,
    with status 200. *)
Theorem GET_submission_keeps_user (W : World) (incoming : Request)
  (courseId assignmentId userId : string) (session : Session)
  (canvasUrl canvasToken : string) (fields : list (string * json))
  (user : json) :
  courseId <> "" -> assignmentId <> "" -> userId <> "" ->
  getSession W = Ok (Some session) ->
  credentialsOf W session = Some (canvasUrl, canvasToken) ->
  result
    (getSubmission W (createCanvasApiClient canvasUrl canvasToken)
       courseId assignmentId userId
       (listParam incoming "include" ["user"; "submission_comments"]))
  = Ok (JObj fields) ->
  assocGet "user" fields = Some user ->
  truthy user = true ->
  result (GET_submission W incoming courseId assignmentId userId)
  = Ok (mkResponse 200 (JObj [("submission", JObj fields)])).
Proof.
  intros Hc Ha Hu Hs Hcred Hsub Huser Htruthy.
  rewrite (GET_submission_found W incoming _ _ _ Hc Ha Hu session Hs _ _
             Hcred).
  rewrite Hsub. cbn [truthy negb prop]. rewrite Huser.
  cbn [truthyOpt]. now rewrite Htruthy.
Qed.

Lemma GET_submission_keeps_user_witness :
  result
    (GET_submission
       (MoreSamples.canvasWorld
          (MoreSamples.answering
             (JObj [("id", JNum "31"); ("user", MoreSamples.canvasUser)])))
       Sample.emptyRequest "7" "9" "42")
  = Ok (mkResponse 200
          (JObj [("submission",
                   JObj [("id", JNum "31");
                         ("user", MoreSamples.canvasUser)])])).
Proof.
  apply (GET_submission_keeps_user
           (MoreSamples.canvasWorld
              (MoreSamples.answering
                 (JObj [("id", JNum "31"); ("user", MoreSamples.canvasUser)])))
           Sample.emptyRequest "7" "9" "42" Sample.teacher
           "canvas.example.edu" "secret"
           [("id", JNum "31"); ("user", MoreSamples.canvasUser)]
           MoreSamples.canvasUser);
    solve [discriminate | reflexivity].
Defined.

(** X21: when the submission fetch throws and the assignment fetch throws
    as well, the GET handler answers 404 "Failed to fetch submission and
    assignment details"; neither error message is passed on. *)
Theorem GET_submission_both_fail (W : World) (incoming : Request)
  (courseId assignmentId userId : string) (session : Session)
  (canvasUrl canvasToken : string) (e1 e2 : exn) :
  courseId <> "" -> assignmentId <> "" -> userId <> "" ->
  getSession W = Ok (Some session) ->
  credentialsOf W session = Some (canvasUrl, canvasToken) ->
  result
    (getSubmission W (createCanvasApiClient canvasUrl canvasToken)
       courseId assignmentId userId
       (listParam incoming "include" ["user"; "submission_comments"]))
  = Throw e1 ->
  result
    (getAssignment W (createCanvasApiClient canvasUrl canvasToken)
       courseId assignmentId)
  = Throw e2 ->
  result (GET_submission W incoming courseId assignmentId userId)
  = Ok (mkResponse 404
          (JObj [("error",
                   JStr "Failed to fetch submission and assignment details")])).
Proof.
  intros Hc Ha Hu Hs Hcred Hsub Hasg.
  rewrite (GET_submission_found W incoming _ _ _ Hc Ha Hu session Hs _ _
             Hcred).
  now rewrite Hsub, submissionFallback_result, Hasg.
Qed.

Lemma GET_submission_both_fail_witness :
  result (GET_submission Sample.settledWorld Sample.emptyRequest "7" "9" "42")
  = Ok (mkResponse 404
          (JObj [("error",
                   JStr "Failed to fetch submission and assignment details")])).
Proof.
  apply (GET_submission_both_fail Sample.settledWorld Sample.emptyRequest
           "7" "9" "42" Sample.teacher "canvas.example.edu" "secret"
           (JsError
              "Network error when connecting to Canvas API at https://canvas.example.edu/api/v1/courses/7/assignments/9/submissions/42?include=user,submission_comments. Please check your Canvas URL and network connection.")
           (JsError
              "Network error when connecting to Canvas API at https://canvas.example.edu/api/v1/courses/7/assignments/9. Please check your Canvas URL and network connection."));
    solve [discriminate | reflexivity].
Defined.

(** ** The grading handler, case by case *)

(** X22: a grading request whose body lacks the assignment description or
    the submission content, or has an empty (falsy) value for one of them,
    is answered with 400 right after the body is read: the model is not
    called. *)
Theorem grade_submission_requires_both_fields (W : World)
  (incoming : Request) (body : json) :
  request_json incoming = Ok body ->
  body <> JNull ->
  truthyOpt (prop body "assignmentDescription")
  && truthyOpt (prop body "submissionContent") = false ->
  POST_grade_submission W incoming
  = (Ok (mkResponse 400
           (JObj [("error",
                    JStr "Assignment description and submission content are required")])),
     [EvRequestJson]).
Proof.
  intros Hb Hnull Hfalsy. unfold POST_grade_submission, call. rewrite Hb.
  assert (Hd : destructure W body = ret (prop body)).
  { destruct body; try reflexivity. congruence. }
  cbn [bind]. rewrite Hd. cbn [bind ret]. cbv zeta.
  apply andb_false_iff in Hfalsy.
  destruct Hfalsy as [H | H]; rewrite H; cbn [negb orb];
    rewrite ?orb_true_r; reflexivity.
Qed.

Lemma grade_submission_requires_both_fields_witness :
  POST_grade_submission Sample.anonymousWorld
    (mkRequest [] (Ok (JObj [("submissionContent", JStr "My essay")])))
  = (Ok (mkResponse 400
           (JObj [("error",
                    JStr "Assignment description and submission content are required")])),
     [EvRequestJson]).
Proof.
  apply (grade_submission_requires_both_fields Sample.anonymousWorld
           (mkRequest [] (Ok (JObj [("submissionContent", JStr "My essay")])))
           (JObj [("submissionContent", JStr "My essay")]));
    solve [discriminate | reflexivity].
Defined.

(** X23: when the text of the model parses as JSON, the grading handler
    answers 200 with the parsed value as it is: it is not checked against
    the shape that the prompt asks for. *)
Theorem grade_submission_returns_model_json (W : World) (incoming : Request)
  (body : json) (text : string) (grading : json) :
  request_json incoming = Ok body ->
  truthyOpt (prop body "assignmentDescription") = true ->
  truthyOpt (prop body "submissionContent") = true ->
  generateText W "gpt-4o"
    (gradingPrompt (prop body "assignmentDescription")
       (prop body "submissionContent") (prop body "pointsPossible")
       (prop body "rubric"))
    "0.2" 2000
  = Ok text ->
  JSON_parse W text = Ok grading ->
  result (POST_grade_submission W incoming)
  = Ok (mkResponse 200 grading).
Proof.
  intros Hbody Hd Hc Hgen Hparse.
  rewrite (POST_grade_submission_run W incoming body Hbody Hd Hc).
  rewrite result_tryCatch, result_bind.
  cbn [emit result fst].
  now rewrite result_bind, result_call, Hgen, parse_step_result, Hparse.
Qed.

Lemma grade_submission_returns_model_json_witness :
  result (POST_grade_submission Sample.anonymousWorld Sample.gradingRequest)
  = Ok (mkResponse 200 (JObj [])).
Proof.
  apply (grade_submission_returns_model_json Sample.anonymousWorld
           Sample.gradingRequest
           (JObj [("assignmentDescription", JStr "Write an essay");
                  ("submissionContent", JStr "My essay")])
           "{}" (JObj []));
    reflexivity.
Defined.

(** X24: when the model call itself fails, the grading handler answers 500
    with the message of the error, or with "An unexpected error occurred"
    when what was thrown is not an [Error]; the model is not called
    again. *)
Theorem grade_submission_model_failure (W : World) (incoming : Request)
  (body : json) (e : exn) :
  request_json incoming = Ok body ->
  truthyOpt (prop body "assignmentDescription") = true ->
  truthyOpt (prop body "submissionContent") = true ->
  generateText W "gpt-4o"
    (gradingPrompt (prop body "assignmentDescription")
       (prop body "submissionContent") (prop body "pointsPossible")
       (prop body "rubric"))
    "0.2" 2000
  = Throw e ->
  result (POST_grade_submission W incoming)
  = Ok (mkResponse 500
          (JObj [("error",
                   JStr (messageOr e "An unexpected error occurred"))]))
  /\ length (modelCalls (POST_grade_submission W incoming)) = 1.
Proof.
  intros Hbody Hd Hc Hgen. split.
  - rewrite (POST_grade_submission_run W incoming body Hbody Hd Hc).
    rewrite result_tryCatch, result_bind.
    cbn [emit result fst].
    now rewrite result_bind, result_call, Hgen.
  - now rewrite (POST_grade_submission_model_calls W incoming body Hbody Hd Hc).
Qed.

Lemma grade_submission_model_failure_witness :
  result
    (POST_grade_submission
       (Sample.world Sample.noRow None Sample.offline (Throw (Thrown "429")))
       Sample.gradingRequest)
  = Ok (mkResponse 500
          (JObj [("error", JStr "An unexpected error occurred")]))
  /\ length
       (modelCalls
          (POST_grade_submission
             (Sample.world Sample.noRow None Sample.offline
                (Throw (Thrown "429")))
             Sample.gradingRequest))
     = 1.
Proof.
  apply (grade_submission_model_failure
           (Sample.world Sample.noRow None Sample.offline
              (Throw (Thrown "429")))
           Sample.gradingRequest
           (JObj [("assignmentDescription", JStr "Write an essay");
                  ("submissionContent", JStr "My essay")])
           (Thrown "429"));
    reflexivity.
Defined.

(** ** The connection test *)

Lemma normalizeCanvasUrl_twice (url : string) :
  normalizeCanvasUrl (normalizeCanvasUrl url) = normalizeCanvasUrl url.
Proof.
  apply normalizeCanvasUrl_fixed.
  - apply normalizeCanvasUrl_has_scheme.
  - apply normalizeCanvasUrl_endsWith_slash.
Qed.

Lemma testConnection_result (W : World) (client : CanvasApiClient) :
  result (testConnection W client)
  = match result (getCurrentUser W client) with
    | Ok JNull => Throw (JsError (typeErrorMessage W "read property id"))
    | Ok user =>
        Ok (JObj [("success", JBool true);
                  ("user",
                    JObj (definedFields
                            [("id", prop user "id");
                             ("name", prop user "name");
                             ("email", emailOrLogin user);
                             ("avatar_url", prop user "avatar_url")]))])
    | Throw e => Throw e
    end.
Proof.
  unfold testConnection. rewrite result_tryCatch, result_bind.
  destruct (result (getCurrentUser W client)) as [user|e]; [|reflexivity].
  destruct user; reflexivity.
Qed.

Section ValidInput.

Variable W : World.
Variable URL_parses : string -> bool.
Variable incoming : Request.
Variable body : json.
Variable url : string.
Variable tok : json.
Hypothesis Hbody : request_json incoming = Ok body.
Hypothesis Hurl : prop body "canvasUrl" = Some (JStr url).
Hypothesis Hnonempty : url <> "".
Hypothesis Htok : prop body "canvasToken" = Some tok.
Hypothesis Htruthy : truthy tok = true.
Hypothesis Hvalid :
  URL_parses url || URL_parses ("https://" ++ url) = true.

(** The handler once its input has passed the checks. *)
Lemma POST_test_connection_run :
  POST_test_connection W URL_parses incoming
  = tryCatch
      (emit EvRequestJson ;;;
       tryCatch
         (r <- testConnection W
                 (createCanvasApiClient (normalizeCanvasUrl url)
                    (toString tok)) ;;
          ret (NextResponse_json r 200))
         (fun e =>
            ret (NextResponse_json
                   (errorBody (messageOr e "Failed to connect to Canvas"))
                   400)))
      (unexpected "Canvas test connection error:").
Proof.
  unfold POST_test_connection. rewrite Hbody, call_ok_bind.
  apply (f_equal (fun m => tryCatch m _)).
  apply bind_ext. intros _.
  assert (Hd : destructure W body = ret (prop body)).
  { destruct body; try reflexivity. discriminate. }
  rewrite Hd, bind_ret_l. cbv zeta.
  rewrite Hurl, Htok. cbn [truthyOpt truthy toStringOpt toString].
  rewrite (eqb_empty_false _ Hnonempty), Htruthy. cbn [negb orb].
  unfold isValidUrl.
  apply orb_true_iff in Hvalid.
  destruct Hvalid as [H | H]; rewrite H; cbn [negb andb];
    rewrite ?andb_false_r; reflexivity.
Qed.

End ValidInput.

(** X25: the connection test refuses bad input before it contacts Canvas.
    A body without a URL or without a token (or with an empty one) is
    answered with 400 "Canvas URL and API token are required"; a URL that
    parses neither as it is nor with "https://" in front is answered with
    400 "Please enter a valid Canvas URL".  Nothing but the request body
    has been read by then. *)
Theorem test_connection_rejects_bad_input (W : World)
  (URL_parses : string -> bool) (incoming : Request) (body : json) :
  request_json incoming = Ok body ->
  body <> JNull ->
  (truthyOpt (prop body "canvasUrl") && truthyOpt (prop body "canvasToken")
   = false
   -> POST_test_connection W URL_parses incoming
      = (Ok (mkResponse 400
               (JObj [("error",
                        JStr "Canvas URL and API token are required")])),
         [EvRequestJson]))
  /\ (truthyOpt (prop body "canvasUrl")
      && truthyOpt (prop body "canvasToken") = true ->
      URL_parses (toStringOpt (prop body "canvasUrl"))
      || URL_parses ("https://" ++ toStringOpt (prop body "canvasUrl"))
      = false ->
      POST_test_connection W URL_parses incoming
      = (Ok (mkResponse 400
               (JObj [("error", JStr "Please enter a valid Canvas URL")])),
         [EvRequestJson])).
Proof.
  intros Hb Hnull.
  assert (Hd : destructure W body = ret (prop body)).
  { destruct body; try reflexivity. congruence. }
  unfold POST_test_connection, call, isValidUrl. rewrite Hb.
  cbn [bind]. rewrite Hd. cbn [bind ret]. cbv zeta.
  split.
  - intro Hfalsy. apply andb_false_iff in Hfalsy.
    destruct Hfalsy as [H | H]; rewrite H; cbn [negb orb];
      rewrite ?orb_true_r; reflexivity.
  - intros Hboth Hinvalid.
    apply andb_true_iff in Hboth. destruct Hboth as [H1 H2].
    apply orb_false_iff in Hinvalid. destruct Hinvalid as [H3 H4].
    rewrite H1, H2, H3, H4. reflexivity.
Qed.

Lemma test_connection_rejects_bad_input_witness :
  POST_test_connection Sample.settledWorld MoreSamples.schemeOnly
    (mkRequest [] (Ok (JObj [("canvasUrl", JStr "canvas.example.edu")])))
  = (Ok (mkResponse 400
           (JObj [("error", JStr "Canvas URL and API token are required")])),
     [EvRequestJson]).
Proof.
  apply (proj1
           (test_connection_rejects_bad_input Sample.settledWorld
              MoreSamples.schemeOnly
              (mkRequest []
                 (Ok (JObj [("canvasUrl", JStr "canvas.example.edu")])))
              (JObj [("canvasUrl", JStr "canvas.example.edu")])
              eq_refl
              ltac:(discriminate))).
  reflexivity.
Defined.

(** X26: for a URL and a token that pass the checks, the connection test
    sends exactly one request: GET [users/self] below the normalised URL,
    with the token as bearer.  That the URL is normalised twice on the
    way, by the handler and by the client, changes nothing. *)
Theorem test_connection_asks_for_current_user (W : World)
  (URL_parses : string -> bool) (incoming : Request) (body : json)
  (url : string) (tok : json) :
  request_json incoming = Ok body ->
  prop body "canvasUrl" = Some (JStr url) ->
  url <> "" ->
  prop body "canvasToken" = Some tok ->
  truthy tok = true ->
  URL_parses url || URL_parses ("https://" ++ url) = true ->
  canvasCalls (POST_test_connection W URL_parses incoming)
  = [EvFetch (normalizeCanvasUrl url ++ "api/v1/users/self")
       (mkInit None None
          [("Authorization", "Bearer " ++ toString tok);
           ("Accept", "application/json");
           ("Content-Type", "application/json")])].
Proof.
  intros Hb Hu Hne Ht Htr Hv.
  rewrite (POST_test_connection_run W URL_parses incoming body url tok
             Hb Hu Hne Ht Htr Hv).
  rewrite canvasCalls_catch_all, canvasCalls_bind, canvasCalls_tryCatch,
    canvasCalls_bind.
  assert (Hcalls :
    canvasCalls
      (testConnection W
         (createCanvasApiClient (normalizeCanvasUrl url) (toString tok)))
    = [EvFetch (normalizeCanvasUrl url ++ "api/v1/users/self")
         (mkInit None None
            [("Authorization", "Bearer " ++ toString tok);
             ("Accept", "application/json");
             ("Content-Type", "application/json")])]).
  { unfold testConnection, getCurrentUser.
    rewrite canvasCalls_tryCatch, canvasCalls_bind, request_canvasCalls.
    rewrite requestUrl_created, normalizeCanvasUrl_twice, result_bind.
    destruct (result (request W _ _ _ _)) as [[]|e]; reflexivity. }
  rewrite Hcalls, result_bind.
  destruct (result (testConnection W _)); reflexivity.
Qed.

Lemma test_connection_asks_for_current_user_witness :
  canvasCalls
    (POST_test_connection Sample.settledWorld MoreSamples.schemeOnly
       MoreSamples.connectionRequest)
  = [EvFetch "https://canvas.example.edu/api/v1/users/self"
       (mkInit None None
          [("Authorization", "Bearer secret");
           ("Accept", "application/json");
           ("Content-Type", "application/json")])].
Proof.
  apply (test_connection_asks_for_current_user Sample.settledWorld
           MoreSamples.schemeOnly MoreSamples.connectionRequest
           (JObj [("canvasUrl", JStr "canvas.example.edu");
                  ("canvasToken", JStr "secret")])
           "canvas.example.edu" (JStr "secret"));
    solve [discriminate | reflexivity].
Defined.

(** X27: when Canvas cannot be reached, the connection test answers 400,
    not 500, and its error is the rewritten network message that names the
    request URL. *)
Theorem test_connection_network_failure (W : World)
  (URL_parses : string -> bool) (incoming : Request) (body : json)
  (url : string) (tok : json) :
  request_json incoming = Ok body ->
  prop body "canvasUrl" = Some (JStr url) ->
  url <> "" ->
  prop body "canvasToken" = Some tok ->
  truthy tok = true ->
  URL_parses url || URL_parses ("https://" ++ url) = true ->
  fetch W (normalizeCanvasUrl url ++ "api/v1/users/self")
    (mkInit None None
       [("Authorization", "Bearer " ++ toString tok);
        ("Accept", "application/json");
        ("Content-Type", "application/json")])
  = Throw (JsError "Failed to fetch") ->
  result (POST_test_connection W URL_parses incoming)
  = Ok (mkResponse 400
          (JObj [("error",
                   JStr ("Network error when connecting to Canvas API at "
                         ++ (normalizeCanvasUrl url ++ "api/v1/users/self")
                         ++ ". Please check your Canvas URL and network connection."))])).
Proof.
  intros Hb Hu Hne Ht Htr Hv Hfetch.
  rewrite (POST_test_connection_run W URL_parses incoming body url tok
             Hb Hu Hne Ht Htr Hv).
  rewrite result_tryCatch, result_bind. cbn [emit result fst].
  rewrite result_tryCatch, result_bind, testConnection_result.
  unfold getCurrentUser. rewrite request_result.
  rewrite requestUrl_created, normalizeCanvasUrl_twice.
  change (fetch W _ _)
    with (fetch W (normalizeCanvasUrl url ++ "api/v1/users/self")
            (mkInit None None
               [("Authorization", "Bearer " ++ toString tok);
                ("Accept", "application/json");
                ("Content-Type", "application/json")])).
  rewrite Hfetch. reflexivity.
Qed.

Lemma test_connection_network_failure_witness :
  result
    (POST_test_connection Sample.settledWorld MoreSamples.schemeOnly
       MoreSamples.connectionRequest)
  = Ok (mkResponse 400
          (JObj [("error",
                   JStr "Network error when connecting to Canvas API at https://canvas.example.edu/api/v1/users/self. Please check your Canvas URL and network connection.")])).
Proof.
  apply (test_connection_network_failure Sample.settledWorld
           MoreSamples.schemeOnly MoreSamples.connectionRequest
           (JObj [("canvasUrl", JStr "canvas.example.edu");
                  ("canvasToken", JStr "secret")])
           "canvas.example.edu" (JStr "secret"));
    solve [discriminate | reflexivity].
Defined.

(** X28: when Canvas returns the current user as an object without a
    (truthy) email, the connection test answers 200 with [success] and a
    user whose email is the login id; fields that the user lacks are left
    out of the answer. *)
Theorem test_connection_email_falls_back_to_login (W : World)
  (URL_parses : string -> bool) (incoming : Request) (body : json)
  (url : string) (tok : json) (response : FetchResponse)
  (fields : list (string * json)) :
  request_json incoming = Ok body ->
  prop body "canvasUrl" = Some (JStr url) ->
  url <> "" ->
  prop body "canvasToken" = Some tok ->
  truthy tok = true ->
  URL_parses url || URL_parses ("https://" ++ url) = true ->
  fetch W (normalizeCanvasUrl url ++ "api/v1/users/self")
    (mkInit None None
       [("Authorization", "Bearer " ++ toString tok);
        ("Accept", "application/json");
        ("Content-Type", "application/json")])
  = Ok response ->
  ok response = true ->
  json_body response = Ok (JObj fields) ->
  truthyOpt (assocGet "email" fields) = false ->
  result (POST_test_connection W URL_parses incoming)
  = Ok (mkResponse 200
          (JObj [("success", JBool true);
                 ("user",
                   JObj (definedFields
                           [("id", assocGet "id" fields);
                            ("name", assocGet "name" fields);
                            ("email", assocGet "login_id" fields);
                            ("avatar_url", assocGet "avatar_url" fields)]))])).
Proof.
  intros Hb Hu Hne Ht Htr Hv Hfetch Hok Hjson Hemail.
  rewrite (POST_test_connection_run W URL_parses incoming body url tok
             Hb Hu Hne Ht Htr Hv).
  rewrite result_tryCatch, result_bind. cbn [emit result fst].
  rewrite result_tryCatch, result_bind, testConnection_result.
  unfold getCurrentUser. rewrite request_result.
  rewrite requestUrl_created, normalizeCanvasUrl_twice.
  change (fetch W _ _)
    with (fetch W (normalizeCanvasUrl url ++ "api/v1/users/self")
            (mkInit None None
               [("Authorization", "Bearer " ++ toString tok);
                ("Accept", "application/json");
                ("Content-Type", "application/json")])).
  rewrite Hfetch, Hok, Hjson.
  unfold emailOrLogin. cbn [prop]. rewrite Hemail. reflexivity.
Qed.

Lemma test_connection_email_falls_back_to_login_witness :
  result
    (POST_test_connection
       (MoreSamples.canvasWorld (MoreSamples.answering MoreSamples.canvasUser))
       MoreSamples.schemeOnly MoreSamples.connectionRequest)
  = Ok (mkResponse 200
          (JObj [("success", JBool true);
                 ("user",
                   JObj [("id", JNum "5"); ("name", JStr "Ada");
                         ("email", JStr "ada@example.edu")])])).
Proof.
  apply (test_connection_email_falls_back_to_login
           (MoreSamples.canvasWorld
              (MoreSamples.answering MoreSamples.canvasUser))
           MoreSamples.schemeOnly MoreSamples.connectionRequest
           (JObj [("canvasUrl", JStr "canvas.example.edu");
                  ("canvasToken", JStr "secret")])
           "canvas.example.edu" (JStr "secret")
           (Sample.okJson MoreSamples.canvasUser)
           [("id", JNum "5"); ("name", JStr "Ada");
            ("login_id", JStr "ada@example.edu")]);
    solve [discriminate | reflexivity].
Defined.
